(** * The scoring engine of the Santander CNPJ dashboard

    A shallow embedding of the scoring functions of [dashboard_novo.py]
    (life stage, financial health, dependency risk, Santander client score,
    liquidity indicators, portfolio cohorts) and of the copy of the
    concentration index kept in [rag_system.py], followed by the properties
    the specification states about them.

    Numbers.  The source computes with Python and numpy floats.  A finite
    float is idealised as a real number: no rounding and no overflow.  The two
    non-finite values the code produces from finite data are kept as they
    are: NaN, which pandas returns for the sample standard deviation of a
    one-row series, and +inf, which the code assigns to the runway when
    nothing is burnt.  Values that can be non-finite have type [fl];
    comparisons with NaN are false, as in Python.

    Rounding.  Where a property depends on the last bits of a result, the
    function is embedded a second time over IEEE binary64 numbers, every
    operation correctly rounded (module [Binary64], on the [spec_float]
    operations of the standard library): this is done for the health score,
    whose category is read off a computed score at the thresholds 80 and
    60.

    Data frames are lists of rows in frame order; a boolean mask is a
    [filter].  Columns the scorers never read (dates, sector) are left out of
    the row records. *)

From Stdlib Require Import Reals Lra Lia Psatz String List ZArith Bool SpecFloat.
Import ListNotations.

Open Scope R_scope.

(* ------------------------------------------------------------------ *)
(** ** Python numbers *)

Module Py.

(** A float: finite, +inf, -inf or NaN. *)
Inductive fl : Type :=
| Fin (x : R)
| PosInf
| NegInf
| NaN.

Definition Rltb (x y : R) : bool := if Rlt_dec x y then true else false.
Definition Rleb (x y : R) : bool := if Rle_dec x y then true else false.
Definition Reqb (x y : R) : bool := if Req_dec_T x y then true else false.

(** [a < b] *)
Definition fl_lt (a b : fl) : bool :=
  match a, b with
  | Fin x, Fin y => Rltb x y
  | Fin _, PosInf => true
  | NegInf, Fin _ => true
  | NegInf, PosInf => true
  | _, _ => false
  end.

(** [a > b] *)
Definition fl_gt (a b : fl) : bool := fl_lt b a.

(** [a <= b] *)
Definition fl_le (a b : fl) : bool :=
  match a, b with
  | NaN, _ | _, NaN => false
  | Fin x, Fin y => Rleb x y
  | NegInf, _ => true
  | _, PosInf => true
  | _, _ => false
  end.

(** [a >= b] *)
Definition fl_ge (a b : fl) : bool := fl_le b a.

(** [a == b] *)
Definition fl_eq (a b : fl) : bool :=
  match a, b with
  | Fin x, Fin y => Reqb x y
  | PosInf, PosInf => true
  | NegInf, NegInf => true
  | _, _ => false
  end.

Definition fl_neg (a : fl) : fl :=
  match a with
  | Fin x => Fin (- x)
  | PosInf => NegInf
  | NegInf => PosInf
  | NaN => NaN
  end.

Definition fl_add (a b : fl) : fl :=
  match a, b with
  | NaN, _ | _, NaN => NaN
  | Fin x, Fin y => Fin (x + y)
  | PosInf, NegInf | NegInf, PosInf => NaN
  | PosInf, _ | _, PosInf => PosInf
  | NegInf, _ | _, NegInf => NegInf
  end.

Definition fl_sub (a b : fl) : fl := fl_add a (fl_neg b).

(** The product of an infinity of the given sign with a finite [x]. *)
Definition inf_times (positive : bool) (x : R) : fl :=
  if Rltb 0 x then (if positive then PosInf else NegInf)
  else if Rltb x 0 then (if positive then NegInf else PosInf)
  else NaN.

Definition fl_mul (a b : fl) : fl :=
  match a, b with
  | NaN, _ | _, NaN => NaN
  | Fin x, Fin y => Fin (x * y)
  | PosInf, Fin x | Fin x, PosInf => inf_times true x
  | NegInf, Fin x | Fin x, NegInf => inf_times false x
  | PosInf, PosInf | NegInf, NegInf => PosInf
  | PosInf, NegInf | NegInf, PosInf => NegInf
  end.

(** numpy division: a zero divisor gives an infinity or NaN, it does not
    raise.  The sign of a zero is not tracked: a zero divisor counts as +0. *)
Definition fl_div (a b : fl) : fl :=
  match a, b with
  | NaN, _ | _, NaN => NaN
  | Fin x, Fin y =>
      if Reqb y 0
      then (if Rltb 0 x then PosInf else if Rltb x 0 then NegInf else NaN)
      else Fin (x / y)
  | Fin _, _ => Fin 0
  | PosInf, Fin y => if Rltb y 0 then NegInf else PosInf
  | NegInf, Fin y => if Rltb y 0 then PosInf else NegInf
  | _, _ => NaN
  end.

(** The builtin [max(a, b)]: the second argument wins only when it compares
    greater than the first, so [max(0, nan)] is [0]. *)
Definition py_max (a b : fl) : fl := if fl_gt b a then b else a.

(** The builtin [min(a, b)]: the second argument wins only when it compares
    smaller than the first. *)
Definition py_min (a b : fl) : fl := if fl_lt b a then b else a.

(** The builtin [sum] over finite values. *)
Definition sum (values : list R) : R := fold_right Rplus 0 values.

End Py.

(* ------------------------------------------------------------------ *)
(** ** pandas series *)

Module Pandas.
Import Py.

(** [s.iloc[0]] and [s.iloc[-1]]; every caller has checked that the series is
    not empty (pandas raises on an empty one). *)
Definition iloc_first (s : list R) : R := hd 0 s.
Definition iloc_last (s : list R) : R := last s 0.

(** [s.diff().dropna()]: the month-over-month deltas, one fewer than the
    rows. *)
Fixpoint diff (s : list R) : list R :=
  match s with
  | a :: (b :: _) as rest => (b - a) :: diff rest
  | _ => []
  end.

(** [s.mean()]; every caller applies it to a series that is not empty. *)
Definition mean (s : list R) : R := sum s / INR (length s).

(** [s.std()]: the sample standard deviation (one delta degree of freedom),
    NaN when the series has fewer than two rows. *)
Definition std (s : list R) : fl :=
  if (length s <? 2)%nat then NaN
  else Fin (sqrt (sum (map (fun x => (x - mean s) ^ 2) s)
                  / INR (length s - 1))).

(** [s[s > 0]] and [s[s < 0]] *)
Definition positives (s : list R) : list R := filter (fun d => Rltb 0 d) s.
Definition negatives (s : list R) : list R := filter (fun d => Rltb d 0) s.

(** [rows.groupby(key)[VL].sum()]: one entry per key, holding the sum of the
    values of its rows.  pandas orders the groups by key, this list by first
    appearance; the consumers only sum over the groups. *)
Fixpoint group_add (k : string) (v : R) (groups : list (string * R))
  : list (string * R) :=
  match groups with
  | [] => [(k, v)]
  | (k', v') :: rest =>
      if String.eqb k k' then (k', v' + v) :: rest
      else (k', v') :: group_add k v rest
  end.

Definition groupby_sum {row : Type} (key : row -> string) (val : row -> R)
  (rows : list row) : list (string * R) :=
  fold_left (fun groups r => group_add (key r) (val r) groups) rows [].

End Pandas.

(* ------------------------------------------------------------------ *)
(** ** dashboard_novo.py *)

Module Dashboard.
Import Py Pandas.

Open Scope string_scope.

(** A row of [Base_Infos.csv]: one month of one company. *)
Record InfoRow : Type := {
  ID : string;
  VL_SLDO : R;
  VL_FATU : R
}.

(** A row of [Base_Transacoes.csv]: payer, receiver and amount. *)
Record TransRow : Type := {
  ID_PGTO : string;
  ID_RCBE : string;
  VL : R
}.

(** [df_infos[df_infos['ID'] == cnpj_selecionado]] *)
Definition rows_of (df_infos : list InfoRow) (cnpj_selecionado : string)
  : list InfoRow :=
  filter (fun r => String.eqb (ID r) cnpj_selecionado) df_infos.

(** [((saldo_final - saldo_inicial) / abs(saldo_inicial)) * 100
     if saldo_inicial != 0 else 0] *)
Definition crescimento_saldo (saldos : list R) : R :=
  let saldo_inicial := iloc_first saldos in
  let saldo_final := iloc_last saldos in
  if negb (Reqb saldo_inicial 0)
  then ((saldo_final - saldo_inicial) / Rabs saldo_inicial) * 100
  else 0.

(** [std() / mean() if mean() != 0 else 1] *)
Definition cv_saldo (saldos : list R) : fl :=
  if negb (Reqb (mean saldos) 0)
  then fl_div (std saldos) (Fin (mean saldos))
  else Fin 1.

(** *** calcular_momento_vida *)

Definition classificar_momento (idade_meses : nat) (crescimento : R)
  (cv : fl) : string * Z :=
  if (idade_meses <=? 2)%nat then ("Iniciante", 20%Z)
  else if Rltb 20 crescimento && fl_lt cv (Fin 0.3)
       then ("Desenvolvimento", 80%Z)
  else if Rltb 0 crescimento && fl_lt cv (Fin 0.5) then ("Madura", 60%Z)
  else if Rltb crescimento (-10) then ("Declínio", 20%Z)
  else ("Madura", 50%Z).

Definition calcular_momento_vida (df_infos : list InfoRow)
  (cnpj_selecionado : string) : string * Z :=
  let dados_cnpj := rows_of df_infos cnpj_selecionado in
  if (length dados_cnpj =? 0)%nat then ("N/A", 0%Z)
  else
    let idade_meses := length dados_cnpj in
    let saldos := map VL_SLDO dados_cnpj in
    classificar_momento idade_meses (crescimento_saldo saldos)
      (cv_saldo saldos).

(** *** calcular_saude_empresa *)

(** [min(100, max(0, x))] *)
Definition clip_0_100 (x : fl) : fl := py_min (Fin 100) (py_max (Fin 0) x).

Definition score_crescimento (saldos : list R) : fl :=
  clip_0_100 (Fin (50 + crescimento_saldo saldos * 2)).

Definition score_estabilidade (saldos : list R) : fl :=
  clip_0_100 (fl_sub (Fin 100) (fl_mul (cv_saldo saldos) (Fin 100))).

Definition score_posicao (saldo_atual faturamento : R) : fl :=
  let ratio_saldo_fatu :=
    if negb (Reqb faturamento 0) then (saldo_atual / faturamento) * 100
    else 0 in
  clip_0_100 (Fin (ratio_saldo_fatu * 0.5)).

Definition score_tendencia (saldos : list R) : fl :=
  if (1 <? length saldos)%nat then
    let deltas := diff saldos in
    let meses_positivos := length (positives deltas) in
    Fin ((INR meses_positivos / INR (length deltas)) * 100)
  else Fin 50.

Definition categoria_saude (score_final : fl) : string :=
  if fl_ge score_final (Fin 80) then "Alta"
  else if fl_ge score_final (Fin 60) then "Média"
  else "Baixa".

Definition calcular_saude_empresa (df_infos : list InfoRow)
  (df_transacoes : list TransRow) (cnpj_selecionado : string)
  : fl * string :=
  let dados_cnpj := rows_of df_infos cnpj_selecionado in
  if (length dados_cnpj =? 0)%nat then (Fin 0, "N/A")
  else
    let saldos := map VL_SLDO dados_cnpj in
    let saldo_atual := iloc_last saldos in
    let faturamento := iloc_first (map VL_FATU dados_cnpj) in
    let score_final :=
      clip_0_100
        (fl_add
           (fl_add
              (fl_add (fl_mul (score_crescimento saldos) (Fin 0.3))
                      (fl_mul (score_estabilidade saldos) (Fin 0.25)))
              (fl_mul (score_posicao saldo_atual faturamento) (Fin 0.25)))
           (fl_mul (score_tendencia saldos) (Fin 0.2))) in
    (score_final, categoria_saude score_final).

(** *** calculate_hhi, nested in calcular_risco_dependencia and again in
    calcular_score_santander with the same body *)

Definition calculate_hhi (values : list R) : R :=
  if (length values =? 0)%nat then 0
  else
    let total := sum values in
    if Reqb total 0 then 0
    else sum (map (fun v => (v / total) ^ 2) values).

(** The counterparty side of a company's transactions. *)
Definition pagamentos_de (trans : list TransRow) (cnpj : string)
  : list TransRow :=
  filter (fun t => String.eqb (ID_PGTO t) cnpj) trans.

Definition recebimentos_de (trans : list TransRow) (cnpj : string)
  : list TransRow :=
  filter (fun t => String.eqb (ID_RCBE t) cnpj) trans.

(** [(hhi_pagamento + hhi_recebimento) / 2] over the per-counterparty sums *)
Definition hhi_medio (pagamentos recebimentos : list TransRow) : R :=
  let hhi_pagamento :=
    calculate_hhi (map snd (groupby_sum ID_RCBE VL pagamentos)) in
  let hhi_recebimento :=
    calculate_hhi (map snd (groupby_sum ID_PGTO VL recebimentos)) in
  (hhi_pagamento + hhi_recebimento) / 2.

(** [len(set(pagamentos['ID_RCBE'].unique())
        | set(recebimentos['ID_PGTO'].unique()))] *)
Definition num_parceiros (pagamentos recebimentos : list TransRow) : nat :=
  length (nodup string_dec
            (map ID_RCBE pagamentos ++ map ID_PGTO recebimentos)).

(** [pagamentos['VL'].sum() + recebimentos['VL'].sum()] *)
Definition volume_total (pagamentos recebimentos : list TransRow) : R :=
  sum (map VL pagamentos) + sum (map VL recebimentos).

(** *** calcular_risco_dependencia *)

Definition categoria_risco (score_final : fl) : string :=
  if fl_ge score_final (Fin 70) then "Alto"
  else if fl_ge score_final (Fin 40) then "Médio"
  else "Baixo".

Definition calcular_risco_dependencia (df_transacoes : list TransRow)
  (cnpj_selecionado : string) : fl * string :=
  let transacoes_cnpj :=
    filter (fun t => String.eqb (ID_PGTO t) cnpj_selecionado
                     || String.eqb (ID_RCBE t) cnpj_selecionado)
           df_transacoes in
  if (length transacoes_cnpj =? 0)%nat then (Fin 0, "N/A")
  else
    let pagamentos := pagamentos_de transacoes_cnpj cnpj_selecionado in
    let recebimentos := recebimentos_de transacoes_cnpj cnpj_selecionado in
    let score_hhi := Fin (hhi_medio pagamentos recebimentos * 100) in
    let score_parceiros :=
      clip_0_100 (Fin (100 - INR (num_parceiros pagamentos recebimentos) * 3))
    in
    let score_volume :=
      clip_0_100 (Fin (100 - volume_total pagamentos recebimentos / 100000))
    in
    let score_final :=
      clip_0_100
        (fl_add (fl_add (fl_mul score_hhi (Fin 0.5))
                        (fl_mul score_parceiros (Fin 0.3)))
                (fl_mul score_volume (Fin 0.2))) in
    (score_final, categoria_risco score_final).

(** *** calcular_score_santander *)

(** [abs(deltas[deltas < 0].mean()) if len(deltas[deltas < 0]) > 0 else 0] *)
Definition burn_rate (deltas : list R) : R :=
  if (0 <? length (negatives deltas))%nat
  then Rabs (mean (negatives deltas))
  else 0.

(** [saldo_atual / burn_rate if burn_rate > 0 else float('inf')] *)
Definition runway (saldo_atual burn_rate : R) : fl :=
  if Rltb 0 burn_rate then Fin (saldo_atual / burn_rate) else PosInf.

Definition score_liquidez (saldo_atual : R) (runway : fl) : Z :=
  if Rltb 0 saldo_atual && fl_gt runway (Fin 12) then 20
  else if Rltb 0 saldo_atual && fl_gt runway (Fin 6) then 15
  else if Rltb 0 saldo_atual && fl_gt runway (Fin 3) then 10
  else if Rltb 0 saldo_atual then 5
  else 0.

Definition score_relacionamentos (num_relacionamentos : nat) (hhi_medio : R)
  : Z :=
  if (20 <? num_relacionamentos)%nat && Rltb hhi_medio 0.3 then 20
  else if (15 <? num_relacionamentos)%nat && Rltb hhi_medio 0.5 then 15
  else if (10 <? num_relacionamentos)%nat && Rltb hhi_medio 0.7 then 10
  else if (5 <? num_relacionamentos)%nat then 5
  else 0.

Definition score_tendencias (variacao_saldo saldo_atual : R) (cv_saldo : fl)
  : Z :=
  if Rltb 0 variacao_saldo && fl_lt cv_saldo (Fin 0.2) then 20
  else if Rltb 0 variacao_saldo && fl_lt cv_saldo (Fin 0.4) then 15
  else if Rltb 0 variacao_saldo then 10
  else if Rltb (- saldo_atual * 0.1) variacao_saldo then 5
  else 0.

Definition score_atividade (volume_total : R) (idade_meses : nat) : Z :=
  if Rltb 1000000 volume_total && (4 <=? idade_meses)%nat then 20
  else if Rltb 500000 volume_total && (3 <=? idade_meses)%nat then 15
  else if Rltb 100000 volume_total && (2 <=? idade_meses)%nat then 10
  else if Rltb 0 volume_total then 5
  else 0.

Definition score_risco (saldo_atual burn_rate : R) (cv_saldo : fl) : Z :=
  if Rltb 0 saldo_atual && Rltb burn_rate (saldo_atual * 0.1)
     && fl_lt cv_saldo (Fin 0.3) then 20
  else if Rltb 0 saldo_atual && Rltb burn_rate (saldo_atual * 0.2)
          && fl_lt cv_saldo (Fin 0.5) then 15
  else if Rltb 0 saldo_atual && Rltb burn_rate (saldo_atual * 0.3) then 10
  else if Rltb 0 saldo_atual then 5
  else 0.

(** The five dimension scores of a company that has rows, in the order of
    the breakdown. *)
Definition dimensoes (dados_cnpj : list InfoRow)
  (df_transacoes : list TransRow) (cnpj_selecionado : string)
  : Z * Z * Z * Z * Z :=
  let idade_meses := length dados_cnpj in
  let saldos := map VL_SLDO dados_cnpj in
  let saldo_atual := iloc_last saldos in
  let saldo_inicial := iloc_first saldos in
  let variacao_saldo := saldo_atual - saldo_inicial in
  let burn := burn_rate (diff saldos) in
  let pagamentos := pagamentos_de df_transacoes cnpj_selecionado in
  let recebimentos := recebimentos_de df_transacoes cnpj_selecionado in
  (score_liquidez saldo_atual (runway saldo_atual burn),
   score_relacionamentos (num_parceiros pagamentos recebimentos)
     (hhi_medio pagamentos recebimentos),
   score_tendencias variacao_saldo saldo_atual (cv_saldo saldos),
   score_atividade (volume_total pagamentos recebimentos) idade_meses,
   score_risco saldo_atual burn (cv_saldo saldos)).

(** The result: the total and the breakdown dict, its keys in insertion
    order; the empty dict for a company without rows. *)
Definition calcular_score_santander (df_infos : list InfoRow)
  (df_transacoes : list TransRow) (cnpj_selecionado : string)
  : Z * list (string * Z) :=
  let dados_cnpj := rows_of df_infos cnpj_selecionado in
  if (length dados_cnpj =? 0)%nat then (0%Z, [])
  else
    let '(liquidez, relacionamentos, tendencias, atividade, risco) :=
      dimensoes dados_cnpj df_transacoes cnpj_selecionado in
    let score_total :=
      (liquidez + relacionamentos + tendencias + atividade + risco)%Z in
    (score_total,
     [("Liquidez", liquidez);
      ("Relacionamentos", relacionamentos);
      ("Tendências", tendencias);
      ("Atividade", atividade);
      ("Risco", risco);
      ("Total", score_total)]).

(** [detalhamento[key]] *)
Fixpoint dict_get (key : string) (d : list (string * Z)) : option Z :=
  match d with
  | [] => None
  | (k, v) :: rest => if String.eqb key k then Some v else dict_get key rest
  end.

(** *** The liquidity indicators of the company page, computed when the
    analysed base has no row for the company *)

Module Liquidez.

Definition burn_rate_mes (deltas : list R) : R :=
  if (0 <? length (negatives deltas))%nat
  then Rabs (mean (negatives deltas))
  else 0.

Definition runway_meses (saldo_atual burn_rate_mes : R) : fl :=
  if Rltb 0 burn_rate_mes then Fin (saldo_atual / burn_rate_mes) else PosInf.

(** [saldo_atual < 0 or runway_meses < 3 or burn_rate_mes > saldo_atual * 0.5] *)
Definition flag_stress_caixa (saldo_atual burn_rate_mes : R)
  (runway_meses : fl) : bool :=
  Rltb saldo_atual 0
  || fl_lt runway_meses (Fin 3)
  || Rltb (saldo_atual * 0.5) burn_rate_mes.


End Liquidez.

(** *** dashboard_geral: the cohorts of the latest month *)

(** A row of [Base_Analisada.csv], with the columns the cohort filters read.
    [MES] is the period key. *)
Record AnalisadaRow : Type := {
  A_ID : string;
  MES : Z;
  score_saude_model_0_100_lgbm : fl;
  q25_health : fl;
  score_dependencia_risco_0_100 : fl;
  q75_risk : fl;
  runway_meses : fl;
  flag_stress_caixa : fl;
  grow_volume_total_mes : fl;
  estado_maturidade_hard : string
}.

(** [pd.isna] *)
Definition isna (x : fl) : bool :=
  match x with NaN => true | _ => false end.

(** [column.isin(labels)] *)
Definition isin (labels : list string) (s : string) : bool :=
  existsb (String.eqb s) labels.

(** [df_analisada[df_analisada['MES'] == df_analisada['MES'].max()]] *)
Definition ultimo_mes_data (df_analisada : list AnalisadaRow)
  : list AnalisadaRow :=
  let mes_max := fold_right Z.max (hd 0%Z (map MES df_analisada))
                            (map MES df_analisada) in
  filter (fun r => (MES r =? mes_max)%Z) df_analisada.

Definition ideal_mask (r : AnalisadaRow) : bool :=
  fl_ge (score_saude_model_0_100_lgbm r) (q25_health r)
  && fl_lt (score_dependencia_risco_0_100 r) (q75_risk r)
  && fl_ge (runway_meses r) (Fin 1)
  && fl_eq (flag_stress_caixa r) (Fin 0)
  && fl_gt (grow_volume_total_mes r) (Fin 0)
  && isin ["Madura"; "Desenvolvimento"] (estado_maturidade_hard r).

Definition perigosa_mask (r : AnalisadaRow) : bool :=
  fl_le (score_saude_model_0_100_lgbm r) (q25_health r)
  && fl_ge (score_dependencia_risco_0_100 r) (q75_risk r)
  && (fl_lt (runway_meses r) (Fin 3) || isna (runway_meses r))
  && fl_eq (flag_stress_caixa r) (Fin 1)
  && fl_lt (grow_volume_total_mes r) (Fin 0)
  && isin ["Declínio"; "Declínio Persistente"] (estado_maturidade_hard r).

Definition empresas_ideais (df_analisada : list AnalisadaRow)
  : list AnalisadaRow :=
  filter ideal_mask (ultimo_mes_data df_analisada).

Definition empresas_perigosas (df_analisada : list AnalisadaRow)
  : list AnalisadaRow :=
  filter perigosa_mask (ultimo_mes_data df_analisada).


(** *** analise_individual: the insights of the company page *)

(** The credit recommendation read off the maturity state. *)
Definition recomendacao (estado : string) : string :=
  if String.eqb estado "Iniciante" then
    "Crédito Inicial Condicionado a Garantias Sólidas e Análise do Plano de Negócios"
  else if String.eqb estado "Estagnação" then
    "Linha de Curto Prazo para Readequação Estratégica, com Garantias Robustas"
  else if String.eqb estado "Desenvolvimento" then
    "Capital de Giro para Aceleração e Antecipação de Recebíveis"
  else if String.eqb estado "Amadurecimento" then
    "Crédito Estruturado para Superação do Platô de Crescimento"
  else if String.eqb estado "Madura" then
    "Crédito Estratégico de Baixo Custo"
  else if String.eqb estado "Expansão" then
    "Financiamento para Projetos de Expansão (CAPEX e M&A)"
  else if String.eqb estado "Declínio" then
    "Não Recomendar Novo Crédito; Foco na Gestão da Exposição Atual"
  else if String.eqb estado "Retomada" then
    "Crédito Especializado para Reestruturação, Mediante Análise do Plano de Viabilidade"
  else if String.eqb estado "Declínio Persistente" then
    "Não Recomendar Novo Crédito; Foco na Gestão da Exposição Atual"
  else "Análise Adicional Necessária".

(** The risk label of the last month: at or above the 75th percentile. *)
Definition risco_cat (risco_atual q75_risk : fl) : string :=
  if fl_ge risco_atual q75_risk then "Concentrado" else "Não concentrado".

(** The volume tendency of the last month. *)
Definition tendencia_volume (crescimento_volume : fl) : string :=
  if fl_gt crescimento_volume (Fin 0.1) then "Em crescimento"
  else if fl_lt crescimento_volume (Fin (-0.1)) then "Em declínio"
  else "Estável".

(** The volatility status: the value read from the column [q75_volat] is
    compared with that same column. *)
Definition volat_status (q75_volat : fl) : string :=
  let volatilidade := q75_volat in
  if fl_ge volatilidade q75_volat then "Alta"
  else if fl_ge volatilidade (fl_mul q75_volat (Fin 0.5)) then "Média"
  else "Baixa".

End Dashboard.

(* ------------------------------------------------------------------ *)
(** ** dashboard_novo.py, the health score in binary64 arithmetic *)

Module Binary64.

Open Scope string_scope.

(** A Python or numpy float: an IEEE binary64 number. *)
Definition float : Type := spec_float.

Definition prec : Z := 53.
Definition emax : Z := 1024.

Definition nan : float := S754_nan.

(** The float of an integer literal or of a length. *)
Definition of_Z (z : Z) : float := binary_normalize prec emax z 0 false.
Definition of_nat (n : nat) : float := of_Z (Z.of_nat n).

Definition add : float -> float -> float := SFadd prec emax.
Definition sub : float -> float -> float := SFsub prec emax.
Definition mul : float -> float -> float := SFmul prec emax.
Definition div : float -> float -> float := SFdiv prec emax.
Definition sqrt : float -> float := SFsqrt prec emax.
Definition abs : float -> float := SFabs.

(** The float of a decimal literal: the binary64 number nearest to
    [num / den], so [decimal 3 10] is the literal [0.3]. *)
Definition decimal (num den : Z) : float := div (of_Z num) (of_Z den).

(** [a < b], [a <= b], [a > b], [a >= b], [a != b]; a comparison with NaN
    is false, and NaN differs from everything. *)
Definition lt (a b : float) : bool := SFltb a b.
Definition le (a b : float) : bool := SFleb a b.
Definition gt (a b : float) : bool := lt b a.
Definition ge (a b : float) : bool := le b a.
Definition ne (a b : float) : bool := negb (SFeqb a b).

Definition isnan (a : float) : bool :=
  match a with
  | S754_nan => true
  | _ => false
  end.


(** The builtins [max(a, b)] and [min(a, b)]: the second argument wins only
    when it compares greater (smaller) than the first. *)
Definition py_max (a b : float) : float := if gt b a then b else a.
Definition py_min (a b : float) : float := if lt b a then b else a.

(** [s.dropna()] *)
Definition dropna (s : list float) : list float :=
  filter (fun x => negb (isnan x)) s.

(** [s.diff()] without its first entry, which is NaN. *)
Fixpoint diff (s : list float) : list float :=
  match s with
  | a :: (b :: _) as rest => sub b a :: diff rest
  | _ => []
  end.


(** A row of [Base_Infos.csv] and a row of [Base_Transacoes.csv]. *)
Record InfoRow : Type := {
  ID : string;
  VL_SLDO : float;
  VL_FATU : float
}.

Record TransRow : Type := {
  ID_PGTO : string;
  ID_RCBE : string;
  VL : float
}.

Definition rows_of (df_infos : list InfoRow) (cnpj_selecionado : string)
  : list InfoRow :=
  filter (fun r => String.eqb (ID r) cnpj_selecionado) df_infos.

(** [min(100, max(0, x))] *)
Definition clip_0_100 (x : float) : float :=
  py_min (of_Z 100) (py_max (of_Z 0) x).

Definition categoria_saude (score_final : float) : string :=
  if ge score_final (of_Z 80) then "Alta"
  else if ge score_final (of_Z 60) then "Média"
  else "Baixa".

(** What a call does: it returns a score with its category, or the integer
    division [meses_positivos / len(deltas)] raises. *)
Inductive outcome : Type :=
| Return (score_final : float) (categoria : string)
| ZeroDivisionError.

(** The trend sub-score, [None] when the division raises:
    [dropna] removes every delta that is NaN. *)
Definition score_tendencia (saldos : list float) : option float :=
  if (1 <? length saldos)%nat then
    let deltas := dropna (diff saldos) in
    let meses_positivos := length (filter (fun d => gt d (of_Z 0)) deltas) in
    if (length deltas =? 0)%nat then None
    else Some (mul (div (of_nat meses_positivos) (of_nat (length deltas)))
                   (of_Z 100))
  else Some (of_Z 50).

Section Reductions.

(** The sum of a series, rounded in whichever order the library adds:
    numpy adds a long series in blocks. *)
Variable series_sum : list float -> float.

(** [s.mean()]: NaN entries are skipped. *)
Definition mean (s : list float) : float :=
  let values := dropna s in
  div (series_sum values) (of_nat (length values)).

(** [s.std()]: NaN entries are skipped; the mean, then the sum of the
    squared deviations over [count - 1]; NaN with fewer than two values. *)
Definition std (s : list float) : float :=
  let values := dropna s in
  let count := length values in
  if (count <=? 1)%nat then nan
  else
    let avg := div (series_sum values) (of_nat count) in
    let sqr := map (fun x => mul (sub avg x) (sub avg x)) values in
    sqrt (div (series_sum sqr) (of_nat (count - 1))).

Definition calcular_saude_empresa (df_infos : list InfoRow)
  (df_transacoes : list TransRow) (cnpj_selecionado : string) : outcome :=
  let dados_cnpj := rows_of df_infos cnpj_selecionado in
  if (length dados_cnpj =? 0)%nat then Return (of_Z 0) "N/A"
  else
    let saldos := map VL_SLDO dados_cnpj in
    let saldo_atual := last saldos nan in
    let saldo_inicial := hd nan saldos in
    let crescimento :=
      if ne saldo_inicial (of_Z 0)
      then mul (div (sub saldo_atual saldo_inicial) (abs saldo_inicial))
               (of_Z 100)
      else of_Z 0 in
    let score_crescimento :=
      clip_0_100 (add (of_Z 50) (mul crescimento (of_Z 2))) in
    let cv_saldo :=
      if ne (mean saldos) (of_Z 0) then div (std saldos) (mean saldos)
      else of_Z 1 in
    let score_estabilidade :=
      clip_0_100 (sub (of_Z 100) (mul cv_saldo (of_Z 100))) in
    let faturamento := hd nan (map VL_FATU dados_cnpj) in
    let ratio_saldo_fatu :=
      if ne faturamento (of_Z 0)
      then mul (div saldo_atual faturamento) (of_Z 100)
      else of_Z 0 in
    let score_posicao := clip_0_100 (mul ratio_saldo_fatu (decimal 5 10)) in
    match score_tendencia saldos with
    | None => ZeroDivisionError
    | Some score_tendencia =>
        let score_final :=
          clip_0_100
            (add (add (add (mul score_crescimento (decimal 3 10))
                           (mul score_estabilidade (decimal 25 100)))
                      (mul score_posicao (decimal 25 100)))
                 (mul score_tendencia (decimal 2 10))) in
        Return score_final (categoria_saude score_final)
    end.

End Reductions.

End Binary64.

(* ------------------------------------------------------------------ *)
(** ** rag_system.py *)

Module Rag.
Import Py.

(** The copy of the concentration index nested in the context builder. *)
Definition calculate_hhi (values : list R) : R :=
  if (length values =? 0)%nat then 0
  else
    let total := sum values in
    if Reqb total 0 then 0
    else sum (map (fun v => (v / total) ^ 2) values).


Open Scope string_scope.

(** *** The risk alerts of the context builder *)








(** An entry of the conversation history. *)
Record Conversa : Type := {
  timestamp : string;
  question : string;
  answer : string
}.

(** [add_to_history]: append, then keep the last 10.  [agora] is the clock
    reading. *)
Definition add_to_history (conversation_history : list Conversa)
  (agora question answer : string) : list Conversa :=
  let h :=
    (conversation_history
     ++ [ {| timestamp := agora; question := question; answer := answer |} ])%list
  in
  if (10 <? length h)%nat then skipn (length h - 10) h else h.

(** What the chat shows: [reversed(history[-5:])]. *)
Definition historico_exibido (history : list Conversa) : list Conversa :=
  rev (skipn (length history - 5) history).

End Rag.

(* ------------------------------------------------------------------ *)
(** ** visualizacoes_avancadas.py *)

Module Visualizacoes.
Import Py Pandas.

Open Scope string_scope.

(** The column [Delta] of [create_saldo_progress_chart]: [VL_SLDO.diff()],
    whose first entry is NaN. *)
Definition delta_column (saldos : list R) : list fl :=
  match saldos with
  | [] => []
  | _ :: _ => NaN :: map Fin (diff saldos)
  end.

(** The colour of each bar. *)
Definition cor_delta (delta : fl) : string :=
  match delta with
  | NaN => "gray"
  | _ => if fl_gt delta (Fin 0) then "green" else "red"
  end.

Definition cores_delta (deltas : list fl) : list string :=
  map cor_delta deltas.

(** [len(dados_saldo[dados_saldo['Delta'] > 0])], the numerator of the
    metric "Meses Positivos"; its denominator is the number of rows. *)
Definition meses_positivos (deltas : list fl) : nat :=
  length (filter (fun d => fl_gt d (Fin 0)) deltas).

(** [df.drop_duplicates(subset=['ID'])] on pairs (ID, VL_SLDO): the first
    row of each ID, in frame order. *)
Fixpoint drop_duplicates_from (seen : list string)
  (rows : list (string * R)) : list (string * R) :=
  match rows with
  | [] => []
  | (id, saldo) :: rest =>
      if existsb (String.eqb id) seen then drop_duplicates_from seen rest
      else (id, saldo) :: drop_duplicates_from (id :: seen) rest
  end.

Definition drop_duplicates (rows : list (string * R)) : list (string * R) :=
  drop_duplicates_from [] rows.

(** [s.min()] and [s.max()] of a series that is not empty. *)
Definition series_min (s : list R) : R := fold_right Rmin (hd 0 s) s.
Definition series_max (s : list R) : R := fold_right Rmax (hd 0 s) s.

(** [1 - (x - min) / (max - min)] *)
Definition risk_score (saldos : list R) (x : R) : fl :=
  fl_sub (Fin 1)
    (fl_div (Fin (x - series_min saldos))
            (Fin (series_max saldos - series_min saldos))).

(** [pd.cut(score, bins=[0, 0.3, 0.7, 1], labels=...)]: intervals open on
    the left and closed on the right; a value outside them, or NaN, gets no
    category. *)
Definition risk_category (score : fl) : option string :=
  if fl_lt (Fin 0) score && fl_le score (Fin 0.3) then Some "Baixo Risco"
  else if fl_lt (Fin 0.3) score && fl_le score (Fin 0.7)
       then Some "Médio Risco"
  else if fl_lt (Fin 0.7) score && fl_le score (Fin 1) then Some "Alto Risco"
  else None.

(** The category of every company of [create_risk_score_chart]. *)
Definition risk_categories (rows : list (string * R))
  : list (string * option string) :=
  let df_risk := drop_duplicates rows in
  let saldos := map snd df_risk in
  map (fun r => (fst r, risk_category (risk_score saldos (snd r)))) df_risk.

End Visualizacoes.

(* ------------------------------------------------------------------ *)
(** ** The formulas in the words of the specification

    Written independently of the code, over the reals, to be compared with
    the functions above. *)

Module Spec.
Import Py.

(** [clip(x, lo, hi)] *)
Definition clip (x lo hi : R) : R := Rmax lo (Rmin x hi).

(** The laws of the concentration index, for one implementation of it: 0 on
    the empty collection, 1 on a single counterparty whose value is not 0,
    invariance under scaling by a positive constant. *)
Definition hhi_laws (hhi : list R -> R) : Prop :=
  hhi [] = 0
  /\ (forall x : R, x <> 0 -> hhi [x] = 1)
  /\ (forall (values : list R) (c : R),
        0 < c -> hhi (map (Rmult c) values) = hhi values).

(** The month-over-month deltas of a series: entry [i] is the balance of
    month [i + 1] minus the balance of month [i]. *)
Definition deltas (series : list R) : list R :=
  map (fun i => nth (S i) series 0 - nth i series 0)
      (seq 0 (length series - 1)).

Fixpoint count_positive (ds : list R) : nat :=
  match ds with
  | [] => 0
  | d :: rest => (if Rlt_dec 0 d then 1 else 0) + count_positive rest
  end.

Fixpoint count_negative (ds : list R) : nat :=
  match ds with
  | [] => 0
  | d :: rest => (if Rlt_dec d 0 then 1 else 0) + count_negative rest
  end.

(** The sum of the absolute values of the negative entries. *)
Fixpoint sum_abs_negative (ds : list R) : R :=
  match ds with
  | [] => 0
  | d :: rest => (if Rlt_dec d 0 then Rabs d else 0) + sum_abs_negative rest
  end.

(** *** Health sub-scores *)

Definition growth_subscore (growth_pct : R) : R :=
  clip (50 + growth_pct * 2) 0 100.

Definition stability_subscore (cv : R) : R :=
  clip (100 - cv * 100) 0 100.

Definition balance_subscore (balance revenue : R) : R :=
  if Req_dec_T revenue 0 then 0
  else clip ((balance / revenue * 100) * 0.5) 0 100.

(** The percentage of positive deltas, 50 with fewer than two records. *)
Definition trend_subscore (series : list R) : R :=
  if lt_dec (length series) 2 then 50
  else 100 * INR (count_positive (deltas series))
       / INR (length (deltas series)).



(** *** Priority ladders *)

(** [first_match rules otherwise v]: evaluating the rules top-down, [v] is
    the value of the first rule whose condition holds, or [otherwise] when
    none does.  A rule below the first satisfied one is never consulted. *)
Inductive first_match {A : Type} : list (Prop * A) -> A -> A -> Prop :=
| fm_none (otherwise : A) : first_match [] otherwise otherwise
| fm_hit (cond : Prop) (v : A) (rest : list (Prop * A)) (otherwise : A) :
    cond -> first_match ((cond, v) :: rest) otherwise v
| fm_skip (cond : Prop) (v : A) (rest : list (Prop * A)) (otherwise r : A) :
    ~ cond -> first_match rest otherwise r ->
    first_match ((cond, v) :: rest) otherwise r.

(** The values a dimension of the credit score can take. *)
Definition tier (z : Z) : Prop := In z [0; 5; 10; 15; 20]%Z.


(** *** Growth and variation of a balance series *)

(** [(last - first) / |first|], 0 when the first balance is 0. *)
Definition growth_ratio (series : list R) : R :=
  let first := hd 0 series in
  if Req_dec_T first 0 then 0 else (last series 0 - first) / Rabs first.

(** The same growth in percent. *)
Definition growth_pct (series : list R) : R := growth_ratio series * 100.

Definition mean (series : list R) : R := sum series / INR (length series).

(** The sample standard deviation of a series of at least two records. *)
Definition std (series : list R) : R :=
  sqrt (sum (map (fun x => (x - mean series) ^ 2) series)
        / (INR (length series) - 1)).

(** [std / mean], 1 when the mean is 0. *)
Definition cv (series : list R) : R :=
  if Req_dec_T (mean series) 0 then 1 else std series / mean series.

(** *** The life-stage ladder *)

Open Scope string_scope.



(** *** Results of the scorers *)

(** What a scorer returns next to its score: a category label, or the
    per-dimension breakdown. *)
Inductive companion : Type :=
| Label (category : string)
| Breakdown (detalhamento : list (string * Z)).


(** *** Grouped sums *)

(** The value a grouped series holds for a key. *)
Fixpoint lookup (k : string) (groups : list (string * R)) : option R :=
  match groups with
  | [] => None
  | (k', v) :: rest => if String.eqb k k' then Some v else lookup k rest
  end.


(** *** The conversation history *)

(** Replaying a list of exchanges, oldest first, through
    [add_to_history]. *)
Fixpoint replay (history : list Rag.Conversa) (exchanges : list Rag.Conversa)
  : list Rag.Conversa :=
  match exchanges with
  | [] => history
  | c :: rest =>
      replay (Rag.add_to_history history (Rag.timestamp c) (Rag.question c)
                (Rag.answer c)) rest
  end.

End Spec.

(* ------------------------------------------------------------------ *)
(** ** Sample data *)

Module Exemplo.
Import Py Dashboard.

Open Scope string_scope.

(** The scenario of the specification: three months of balances 100000,
    110000 and 121000 with a revenue of 500000, among the rows of another
    company. *)
Definition df_infos : list InfoRow :=
  [ {| ID := "CNPJ_00001"; VL_SLDO := 100000; VL_FATU := 500000 |};
    {| ID := "CNPJ_00002"; VL_SLDO := -100; VL_FATU := 9000 |};
    {| ID := "CNPJ_00001"; VL_SLDO := 110000; VL_FATU := 500000 |};
    {| ID := "CNPJ_00002"; VL_SLDO := -200; VL_FATU := 9000 |};
    {| ID := "CNPJ_00001"; VL_SLDO := 121000; VL_FATU := 500000 |} ].

Definition df_transacoes : list TransRow :=
  [ {| ID_PGTO := "CNPJ_00001"; ID_RCBE := "CNPJ_00002"; VL := 250 |};
    {| ID_PGTO := "CNPJ_00002"; ID_RCBE := "CNPJ_00001"; VL := 750 |} ].

Definition ideal : AnalisadaRow :=
  {| A_ID := "CNPJ_00001"; MES := 3;
     score_saude_model_0_100_lgbm := Fin 80; q25_health := Fin 50;
     score_dependencia_risco_0_100 := Fin 30; q75_risk := Fin 60;
     runway_meses := Fin 12; flag_stress_caixa := Fin 0;
     grow_volume_total_mes := Fin 0.1;
     estado_maturidade_hard := "Madura" |}.

Definition perigosa : AnalisadaRow :=
  {| A_ID := "CNPJ_00002"; MES := 3;
     score_saude_model_0_100_lgbm := Fin 20; q25_health := Fin 50;
     score_dependencia_risco_0_100 := Fin 90; q75_risk := Fin 60;
     runway_meses := NaN; flag_stress_caixa := Fin 1;
     grow_volume_total_mes := Fin (-0.2);
     estado_maturidade_hard := "Declínio" |}.

Definition antiga : AnalisadaRow :=
  {| A_ID := "CNPJ_00001"; MES := 2;
     score_saude_model_0_100_lgbm := Fin 70; q25_health := Fin 40;
     score_dependencia_risco_0_100 := Fin 30; q75_risk := Fin 60;
     runway_meses := Fin 10; flag_stress_caixa := Fin 0;
     grow_volume_total_mes := Fin 0.3;
     estado_maturidade_hard := "Madura" |}.

Definition df_analisada : list AnalisadaRow := [antiga; ideal; perigosa].





End Exemplo.

(* ------------------------------------------------------------------ *)
(** ** Comparisons and sums *)

Import Py Pandas.

Lemma Rltb_true (x y : R) : Rltb x y = true <-> x < y.
Proof. unfold Rltb. destruct (Rlt_dec x y); split; intros; congruence || lra. Qed.

Lemma Rltb_false (x y : R) : Rltb x y = false <-> y <= x.
Proof. unfold Rltb. destruct (Rlt_dec x y); split; intros; congruence || lra. Qed.

Lemma Rleb_true (x y : R) : Rleb x y = true <-> x <= y.
Proof. unfold Rleb. destruct (Rle_dec x y); split; intros; congruence || lra. Qed.

Lemma Rleb_false (x y : R) : Rleb x y = false <-> y < x.
Proof. unfold Rleb. destruct (Rle_dec x y); split; intros; congruence || lra. Qed.

Lemma Reqb_true (x y : R) : Reqb x y = true <-> x = y.
Proof. unfold Reqb. destruct (Req_dec_T x y); split; intros; congruence. Qed.

Lemma Reqb_false (x y : R) : Reqb x y = false <-> x <> y.
Proof. unfold Reqb. destruct (Req_dec_T x y); split; intros; congruence. Qed.

(** Decide one real comparison of the goal and keep the fact. *)
Ltac cmp_lt x y :=
  let H := fresh "Hlt" in
  destruct (Rltb x y) eqn:H;
  [ apply Rltb_true in H | apply Rltb_false in H ].

Ltac cmp_le x y :=
  let H := fresh "Hle" in
  destruct (Rleb x y) eqn:H;
  [ apply Rleb_true in H | apply Rleb_false in H ].

Ltac cmp_eq x y :=
  let H := fresh "Heq" in
  destruct (Reqb x y) eqn:H;
  [ apply Reqb_true in H | apply Reqb_false in H ].

Section Sums.

Lemma sum_cons (x : R) (l : list R) : sum (x :: l) = x + sum l.
Proof. reflexivity. Qed.

Lemma sum_scale (c : R) (l : list R) :
  sum (map (Rmult c) l) = c * sum l.
Proof.
  induction l as [|x l IH]; simpl.
  - ring.
  - rewrite IH. ring.
Qed.

Lemma sum_nonneg (l : list R) : Forall (fun v => 0 <= v) l -> 0 <= sum l.
Proof.
  induction 1 as [|x l Hx _ IH]; simpl; lra.
Qed.

Lemma sum_pos (l : list R) :
  l <> [] -> Forall (fun v => 0 < v) l -> 0 < sum l.
Proof.
  intros Hne Hall. destruct Hall as [|x l Hx Hl]; [congruence|].
  simpl. assert (0 <= sum l).
  { apply sum_nonneg. eapply Forall_impl; [|exact Hl]. simpl. intros; lra. }
  lra.
Qed.

Lemma sum_neg (l : list R) :
  l <> [] -> Forall (fun v => v < 0) l -> sum l < 0.
Proof.
  intros Hne Hall. induction Hall as [|x l Hx Hl IH]; [congruence|].
  simpl. destruct l as [|y l]; simpl in *; [lra|].
  assert (y + sum l < 0) by (apply IH; discriminate). lra.
Qed.

(** The shares squared are the squares over the squared total. *)
Lemma sum_shares (total : R) (l : list R) :
  total <> 0 ->
  sum (map (fun v => (v / total) ^ 2) l)
  = sum (map (fun v => v ^ 2) l) / total ^ 2.
Proof.
  intros Ht. induction l as [|x l IH]; simpl.
  - field. exact Ht.
  - simpl in IH. rewrite IH. field. exact Ht.
Qed.

Lemma sum_squares_nonneg (l : list R) : 0 <= sum (map (fun v => v ^ 2) l).
Proof.
  induction l as [|x l IH]; simpl; [lra|].
  simpl in IH. nra.
Qed.

(** For values that are not negative the sum of the squares is at most the
    square of the sum. *)
Lemma sum_squares_le (l : list R) :
  Forall (fun v => 0 <= v) l ->
  sum (map (fun v => v ^ 2) l) <= (sum l) ^ 2.
Proof.
  induction 1 as [|x l Hx Hl IH]; simpl.
  - lra.
  - simpl in IH. pose proof (sum_nonneg l Hl). nra.
Qed.

End Sums.

(* ------------------------------------------------------------------ *)
(** ** The concentration index *)

Section Concentration.
Import Dashboard.

Lemma calculate_hhi_nonempty (values : list R) :
  values <> [] -> sum values <> 0 ->
  calculate_hhi values
  = sum (map (fun v => (v / sum values) ^ 2) values).
Proof.
  intros Hne Ht. unfold calculate_hhi.
  destruct values as [|v values]; [congruence|].
  cbn [length Nat.eqb]. cmp_eq (sum (v :: values)) 0; [contradiction|].
  reflexivity.
Qed.

Lemma calculate_hhi_total_zero (values : list R) :
  sum values = 0 -> calculate_hhi values = 0.
Proof.
  intros Ht. unfold calculate_hhi.
  destruct (length values =? 0)%nat; [reflexivity|].
  cmp_eq (sum values) 0; [reflexivity|contradiction].
Qed.

Lemma calculate_hhi_range (values : list R) :
  Forall (fun v => 0 < v) values -> 0 <= calculate_hhi values <= 1.
Proof.
  intros Hpos. destruct values as [|v values].
  - unfold calculate_hhi. simpl. lra.
  - assert (Ht : 0 < sum (v :: values)) by (apply sum_pos; [discriminate|exact Hpos]).
    rewrite calculate_hhi_nonempty by (discriminate || lra).
    rewrite sum_shares by lra.
    assert (Hnn : Forall (fun x => 0 <= x) (v :: values)).
    { eapply Forall_impl; [|exact Hpos]. simpl. intros; lra. }
    pose proof (sum_squares_le _ Hnn) as Hle.
    pose proof (sum_squares_nonneg (v :: values)) as Hge.
    assert (Hsq : 0 < sum (v :: values) ^ 2) by nra.
    split.
    + apply Rmult_le_pos; [exact Hge|]. left. apply Rinv_0_lt_compat. exact Hsq.
    + apply (Rmult_le_reg_r (sum (v :: values) ^ 2)); [exact Hsq|].
      unfold Rdiv. rewrite Rmult_assoc, Rinv_l by lra. lra.
Qed.

Lemma calculate_hhi_scale (c : R) (values : list R) :
  c <> 0 ->
  calculate_hhi (map (Rmult c) values) = calculate_hhi values.
Proof.
  intros Hc. unfold calculate_hhi. rewrite length_map.
  destruct (length values =? 0)%nat; [reflexivity|].
  rewrite sum_scale.
  cmp_eq (sum values) 0.
  - rewrite Heq, Rmult_0_r.
    cmp_eq 0 0; [reflexivity|congruence].
  - cmp_eq (c * sum values) 0.
    + apply Rmult_integral in Heq0. tauto.
    + rewrite map_map. f_equal. apply map_ext. intros v.
      f_equal. field. tauto.
Qed.

Lemma calculate_hhi_single (x : R) : x <> 0 -> calculate_hhi [x] = 1.
Proof.
  intros Hx. rewrite calculate_hhi_nonempty; simpl; try discriminate.
  - rewrite Rplus_0_r. field. exact Hx.
  - lra.
Qed.

Lemma rag_calculate_hhi_same (values : list R) :
  Rag.calculate_hhi values = calculate_hhi values.
Proof. reflexivity. Qed.

End Concentration.

(** C3.  [calculate_hhi] returns the sum of the squared shares
    [(v / total) ^ 2], with [total] the sum of the values; it returns 0 for
    the empty collection and 0 when the total is 0; when every value is
    positive the result lies between 0 and 1. *)
Theorem calculate_hhi_spec (values : list R) :
  (values = [] -> Dashboard.calculate_hhi values = 0) /\
  (sum values = 0 -> Dashboard.calculate_hhi values = 0) /\
  (values <> [] -> sum values <> 0 ->
   Dashboard.calculate_hhi values
   = sum (map (fun v => (v / sum values) ^ 2) values)) /\
  (Forall (fun v => 0 < v) values ->
   0 <= Dashboard.calculate_hhi values <= 1).
Proof.
  repeat split.
  - intros ->. reflexivity.
  - apply calculate_hhi_total_zero.
  - apply calculate_hhi_nonempty.
  - apply calculate_hhi_range; assumption.
  - apply calculate_hhi_range; assumption.
Qed.

Lemma calculate_hhi_spec_witness :
  Dashboard.calculate_hhi [1; 3] = sum (map (fun v => (v / sum [1; 3]) ^ 2) [1; 3])
  /\ 0 <= Dashboard.calculate_hhi [1; 3] <= 1
  /\ Dashboard.calculate_hhi [2; -2] = 0
  /\ Dashboard.calculate_hhi [] = 0.
Proof.
  split; [|split; [|split]].
  - destruct (calculate_hhi_spec [1; 3]) as (_ & _ & Hformula & _).
    apply Hformula; [discriminate | simpl; lra].
  - destruct (calculate_hhi_spec [1; 3]) as (_ & _ & _ & Hrange).
    apply Hrange. repeat constructor; lra.
  - destruct (calculate_hhi_spec [2; -2]) as (_ & Hzero & _).
    apply Hzero. simpl; lra.
  - destruct (calculate_hhi_spec []) as (Hempty & _).
    apply Hempty. reflexivity.
Defined.

(** The concrete value behind the witness: two counterparties holding a
    quarter and three quarters of the value. *)
Example calculate_hhi_quarter : Dashboard.calculate_hhi [1; 3] = 5 / 8.
Proof.
  rewrite calculate_hhi_nonempty by (discriminate || (simpl; lra)).
  simpl. field.
Qed.

(** C4, as the code has it.  Both copies of [calculate_hhi] give 0 on the
    empty collection, 1 on a single counterparty whose value is not 0, and
    the same index when every value is multiplied by one positive
    constant. *)
Theorem calculate_hhi_laws :
  Spec.hhi_laws Dashboard.calculate_hhi /\ Spec.hhi_laws Rag.calculate_hhi.
Proof.
  assert (H : Spec.hhi_laws Dashboard.calculate_hhi).
  { repeat split.
    - intros x Hx. apply calculate_hhi_single. exact Hx.
    - intros values c Hc. apply calculate_hhi_scale. lra. }
  split; exact H.
Qed.

Lemma calculate_hhi_laws_witness :
  Dashboard.calculate_hhi [250] = 1
  /\ Rag.calculate_hhi (map (Rmult 2) [1; 3]) = Rag.calculate_hhi [1; 3].
Proof.
  split.
  - destruct calculate_hhi_laws as ((_ & Hsingle & _) & _).
    apply Hsingle. lra.
  - destruct calculate_hhi_laws as (_ & (_ & _ & Hscale)).
    apply Hscale. lra.
Defined.

(** C4 as stated fails on a single counterparty whose summed value is 0:
    the guard on a zero total answers 0, not 1. *)
Lemma calculate_hhi_single_zero :
  Dashboard.calculate_hhi [0] = 0 /\ Dashboard.calculate_hhi [0] <> 1
  /\ Rag.calculate_hhi [0] <> 1.
Proof.
  assert (H : Dashboard.calculate_hhi [0] = 0).
  { apply calculate_hhi_total_zero. simpl. lra. }
  repeat split.
  - exact H.
  - rewrite H. lra.
  - rewrite rag_calculate_hhi_same, H. lra.
Qed.

(* ------------------------------------------------------------------ *)
(** ** Clipping and the series helpers *)

Section Clipping.
Import Dashboard.

Lemma clip_bounds (x : R) : 0 <= Spec.clip x 0 100 <= 100.
Proof.
  unfold Spec.clip, Rmax, Rmin.
  destruct (Rle_dec x 100); destruct (Rle_dec 0 _); lra.
Qed.

Lemma clip_inside (x : R) : 0 <= x <= 100 -> Spec.clip x 0 100 = x.
Proof.
  intros Hx. unfold Spec.clip, Rmax, Rmin.
  destruct (Rle_dec x 100); destruct (Rle_dec 0 _); lra.
Qed.

Lemma clip_above (x : R) : 100 <= x -> Spec.clip x 0 100 = 100.
Proof.
  intros Hx. unfold Spec.clip, Rmax, Rmin.
  destruct (Rle_dec x 100); destruct (Rle_dec 0 _); lra.
Qed.

Lemma clip_below (x : R) : x <= 0 -> Spec.clip x 0 100 = 0.
Proof.
  intros Hx. unfold Spec.clip, Rmax, Rmin.
  destruct (Rle_dec x 100); destruct (Rle_dec 0 _); lra.
Qed.

(** On a finite value [min(100, max(0, x))] is the clip of the
    specification. *)
Lemma clip_0_100_fin (x : R) : clip_0_100 (Fin x) = Fin (Spec.clip x 0 100).
Proof.
  unfold clip_0_100, py_max, py_min, fl_gt. cbn [fl_lt].
  cmp_lt 0 x; cbn [fl_lt].
  - cmp_lt x 100; f_equal.
    + symmetry. apply clip_inside. lra.
    + symmetry. apply clip_above. lra.
  - cmp_lt 0 100; [|lra]. f_equal. symmetry. apply clip_below. lra.
Qed.

(** NaN compares greater than nothing, so [max(0, nan)] keeps the 0. *)
Lemma clip_0_100_nan : clip_0_100 NaN = Fin 0.
Proof.
  unfold clip_0_100, py_max, py_min, fl_gt. cbn [fl_lt].
  cmp_lt 0 100; [reflexivity|lra].
Qed.

Lemma diff_deltas (s : list R) : diff s = Spec.deltas s.
Proof.
  unfold Spec.deltas. induction s as [|a s IH]; [reflexivity|].
  destruct s as [|b s]; [reflexivity|].
  change (diff (a :: b :: s)) with ((b - a) :: diff (b :: s)).
  rewrite IH. cbn [length Nat.sub]. rewrite Nat.sub_0_r.
  cbn [seq map nth]. f_equal.
  rewrite <- seq_shift, map_map. apply map_ext. intros i. reflexivity.
Qed.

Lemma diff_length (s : list R) : length (diff s) = (length s - 1)%nat.
Proof.
  rewrite diff_deltas. unfold Spec.deltas. now rewrite length_map, length_seq.
Qed.

Lemma positives_count (ds : list R) :
  length (positives ds) = Spec.count_positive ds.
Proof.
  induction ds as [|d ds IH]; [reflexivity|].
  unfold positives in *. cbn [filter Spec.count_positive].
  cmp_lt 0 d; destruct (Rlt_dec 0 d); try lra; cbn [length]; rewrite IH;
    reflexivity.
Qed.

Lemma negatives_count (ds : list R) :
  length (negatives ds) = Spec.count_negative ds.
Proof.
  induction ds as [|d ds IH]; [reflexivity|].
  unfold negatives in *. cbn [filter Spec.count_negative].
  cmp_lt d 0; destruct (Rlt_dec d 0); try lra; cbn [length]; rewrite IH;
    reflexivity.
Qed.

Lemma negatives_all (ds : list R) : Forall (fun d => d < 0) (negatives ds).
Proof.
  unfold negatives. apply Forall_forall. intros d Hd.
  apply filter_In in Hd. destruct Hd as [_ Hd]. now apply Rltb_true in Hd.
Qed.

End Clipping.

(* ------------------------------------------------------------------ *)
(** ** The coefficient of variation *)

Section Variation.
Import Dashboard.

Lemma std_short (s : list R) : (length s < 2)%nat -> std s = NaN.
Proof.
  intros Hs. unfold std. apply Nat.ltb_lt in Hs. now rewrite Hs.
Qed.

Lemma std_long (s : list R) : (2 <= length s)%nat -> std s = Fin (Spec.std s).
Proof.
  intros Hs. unfold std, Spec.std. apply Nat.ltb_ge in Hs as Hb. rewrite Hb.
  rewrite minus_INR by lia. reflexivity.
Qed.

Lemma std_nonneg (s : list R) : 0 <= Spec.std s.
Proof. apply sqrt_pos. Qed.

Lemma cv_saldo_mean_zero (s : list R) : mean s = 0 -> cv_saldo s = Fin 1.
Proof.
  intros Hm. unfold cv_saldo. cmp_eq (mean s) 0; [reflexivity|contradiction].
Qed.

Lemma cv_saldo_short (s : list R) :
  (length s < 2)%nat -> mean s <> 0 -> cv_saldo s = NaN.
Proof.
  intros Hs Hm. unfold cv_saldo. cmp_eq (mean s) 0; [contradiction|].
  cbn [negb]. rewrite std_short by exact Hs. reflexivity.
Qed.

Lemma cv_saldo_long (s : list R) :
  (2 <= length s)%nat -> mean s <> 0 ->
  cv_saldo s = Fin (Spec.std s / mean s).
Proof.
  intros Hs Hm. unfold cv_saldo. cmp_eq (mean s) 0; [contradiction|].
  cbn [negb]. rewrite std_long by exact Hs. cbn [fl_div].
  cmp_eq (mean s) 0; [contradiction|reflexivity].
Qed.

(** The coefficient is a number or NaN, never an infinity. *)
Lemma cv_saldo_cases (s : list R) :
  cv_saldo s = NaN \/ exists cv : R, cv_saldo s = Fin cv.
Proof.
  destruct (Req_dec_T (mean s) 0) as [Hm|Hm].
  - right. exists 1. now apply cv_saldo_mean_zero.
  - destruct (le_lt_dec 2 (length s)) as [Hs|Hs].
    + right. eexists. now apply cv_saldo_long.
    + left. now apply cv_saldo_short.
Qed.

End Variation.

(* ------------------------------------------------------------------ *)
(** ** The health score *)

Section Health.
Import Dashboard.

Lemma rows_of_nonempty (df_infos : list InfoRow) (cnpj : string) :
  rows_of df_infos cnpj <> [] ->
  (length (rows_of df_infos cnpj) =? 0)%nat = false.
Proof.
  intros Hne. apply Nat.eqb_neq. intros Hlen.
  apply length_zero_iff_nil in Hlen. contradiction.
Qed.

Lemma rows_of_empty (df_infos : list InfoRow) (cnpj : string) :
  (forall r, In r df_infos -> ID r <> cnpj) -> rows_of df_infos cnpj = [].
Proof.
  intros Habs. unfold rows_of.
  induction df_infos as [|r df IH]; [reflexivity|].
  cbn [filter]. destruct (String.eqb_spec (ID r) cnpj) as [Heq|Hneq].
  - exfalso. apply (Habs r); [now left|exact Heq].
  - apply IH. intros r' Hr'. apply Habs. now right.
Qed.

Lemma score_crescimento_spec (saldos : list R) :
  score_crescimento saldos
  = Fin (Spec.growth_subscore (crescimento_saldo saldos)).
Proof. unfold score_crescimento. apply clip_0_100_fin. Qed.

Lemma score_estabilidade_fin (saldos : list R) (cv : R) :
  cv_saldo saldos = Fin cv ->
  score_estabilidade saldos = Fin (Spec.stability_subscore cv).
Proof.
  intros Hcv. unfold score_estabilidade. rewrite Hcv.
  cbn [fl_mul fl_sub fl_neg fl_add]. rewrite clip_0_100_fin.
  reflexivity.
Qed.

Lemma score_estabilidade_nan (saldos : list R) :
  cv_saldo saldos = NaN -> score_estabilidade saldos = Fin 0.
Proof.
  intros Hcv. unfold score_estabilidade. rewrite Hcv.
  cbn [fl_mul fl_sub fl_neg fl_add]. apply clip_0_100_nan.
Qed.

Lemma score_posicao_spec (saldo_atual faturamento : R) :
  score_posicao saldo_atual faturamento
  = Fin (Spec.balance_subscore saldo_atual faturamento).
Proof.
  unfold score_posicao, Spec.balance_subscore.
  cmp_eq faturamento 0; destruct (Req_dec_T faturamento 0); try contradiction;
    cbn [negb]; rewrite clip_0_100_fin; f_equal.
  rewrite clip_inside; lra.
Qed.

Lemma score_tendencia_spec (saldos : list R) :
  score_tendencia saldos = Fin (Spec.trend_subscore saldos).
Proof.
  unfold score_tendencia, Spec.trend_subscore.
  destruct (Nat.ltb_spec 1 (length saldos)) as [Hlen|Hlen];
    destruct (lt_dec (length saldos) 2); try lia; [|reflexivity].
  rewrite positives_count, diff_deltas. f_equal. unfold Rdiv. ring.
Qed.

Lemma categoria_saude_fin (score : R) :
  (80 <= score -> categoria_saude (Fin score) = "Alta"%string)
  /\ (60 <= score < 80 -> categoria_saude (Fin score) = "Média"%string)
  /\ (score < 60 -> categoria_saude (Fin score) = "Baixa"%string).
Proof.
  unfold categoria_saude, fl_ge. cbn [fl_le].
  cmp_le 80 score; cmp_le 60 score; repeat split; intros; try lra; reflexivity.
Qed.

End Health.


(* ------------------------------------------------------------------ *)
(** ** The Santander client score *)

(** Walk down a ladder: take the rule when its condition is among the
    facts, skip it when the facts refute it. *)
Ltac ladder :=
  repeat first
    [ apply Spec.fm_none
    | apply Spec.fm_hit; solve [repeat split; (assumption || lra || lia)]
    | apply Spec.fm_skip;
      [ solve [intro; intuition (congruence || lra || lia)] | ] ].

Ltac cmp_bool b :=
  let H := fresh "Hb" in destruct b eqn:H.

Section ClientScore.
Import Dashboard.

Lemma first_match_tier (rules : list (Prop * Z)) (otherwise v : Z) :
  Spec.first_match rules otherwise v ->
  Forall (fun rule => Spec.tier (snd rule)) rules ->
  Spec.tier otherwise -> Spec.tier v.
Proof.
  induction 1 as [d|c v rest d Hc|c v rest d r Hc Hrest IH]; intros Hall Hd.
  - exact Hd.
  - now inversion Hall.
  - apply IH; [now inversion Hall|exact Hd].
Qed.

(** A ladder selects one value only. *)
Lemma first_match_unique {A : Type} (rules : list (Prop * A))
  (otherwise v w : A) :
  Spec.first_match rules otherwise v ->
  Spec.first_match rules otherwise w -> v = w.
Proof.
  induction 1 as [d|c v rest d Hc|c v rest d r Hc Hrest IH]; intros Hw;
    inversion Hw; subst; try reflexivity; try contradiction.
  now apply IH.
Qed.

Lemma score_liquidez_ladder (saldo_atual : R) (runway : fl) :
  Spec.first_match
    [ (0 < saldo_atual /\ fl_gt runway (Fin 12) = true, 20%Z);
      (0 < saldo_atual /\ fl_gt runway (Fin 6) = true, 15%Z);
      (0 < saldo_atual /\ fl_gt runway (Fin 3) = true, 10%Z);
      (0 < saldo_atual, 5%Z) ] 0%Z
    (score_liquidez saldo_atual runway).
Proof.
  unfold score_liquidez.
  cmp_lt 0 saldo_atual; cbn [andb];
    [ cmp_bool (fl_gt runway (Fin 12)); [|cmp_bool (fl_gt runway (Fin 6));
        [|cmp_bool (fl_gt runway (Fin 3))]] | ];
    ladder.
Qed.

Lemma score_relacionamentos_ladder (num_relacionamentos : nat) (hhi : R) :
  Spec.first_match
    [ ((20 < num_relacionamentos)%nat /\ hhi < 0.3, 20%Z);
      ((15 < num_relacionamentos)%nat /\ hhi < 0.5, 15%Z);
      ((10 < num_relacionamentos)%nat /\ hhi < 0.7, 10%Z);
      ((5 < num_relacionamentos)%nat, 5%Z) ] 0%Z
    (score_relacionamentos num_relacionamentos hhi).
Proof.
  unfold score_relacionamentos.
  destruct (Nat.ltb_spec 20 num_relacionamentos);
    destruct (Nat.ltb_spec 15 num_relacionamentos);
    destruct (Nat.ltb_spec 10 num_relacionamentos);
    destruct (Nat.ltb_spec 5 num_relacionamentos); try lia; cbn [andb];
    try cmp_lt hhi 0.3; try cmp_lt hhi 0.5; try cmp_lt hhi 0.7; ladder.
Qed.

Lemma score_tendencias_ladder (variacao_saldo saldo_atual : R) (cv : fl) :
  Spec.first_match
    [ (0 < variacao_saldo /\ fl_lt cv (Fin 0.2) = true, 20%Z);
      (0 < variacao_saldo /\ fl_lt cv (Fin 0.4) = true, 15%Z);
      (0 < variacao_saldo, 10%Z);
      (- saldo_atual * 0.1 < variacao_saldo, 5%Z) ] 0%Z
    (score_tendencias variacao_saldo saldo_atual cv).
Proof.
  unfold score_tendencias.
  cmp_lt 0 variacao_saldo; cbn [andb];
    [ cmp_bool (fl_lt cv (Fin 0.2)); [|cmp_bool (fl_lt cv (Fin 0.4))]
    | cmp_lt (- saldo_atual * 0.1) variacao_saldo ];
    ladder.
Qed.

Lemma score_atividade_ladder (volume : R) (idade_meses : nat) :
  Spec.first_match
    [ (1000000 < volume /\ (4 <= idade_meses)%nat, 20%Z);
      (500000 < volume /\ (3 <= idade_meses)%nat, 15%Z);
      (100000 < volume /\ (2 <= idade_meses)%nat, 10%Z);
      (0 < volume, 5%Z) ] 0%Z
    (score_atividade volume idade_meses).
Proof.
  unfold score_atividade.
  cmp_lt 1000000 volume; cmp_lt 500000 volume; cmp_lt 100000 volume;
    cmp_lt 0 volume; try lra; cbn [andb];
    destruct (Nat.leb_spec 4 idade_meses);
    destruct (Nat.leb_spec 3 idade_meses);
    destruct (Nat.leb_spec 2 idade_meses); try lia; ladder.
Qed.

Lemma score_risco_ladder (saldo_atual burn : R) (cv : fl) :
  Spec.first_match
    [ (0 < saldo_atual /\ burn < saldo_atual * 0.1
       /\ fl_lt cv (Fin 0.3) = true, 20%Z);
      (0 < saldo_atual /\ burn < saldo_atual * 0.2
       /\ fl_lt cv (Fin 0.5) = true, 15%Z);
      (0 < saldo_atual /\ burn < saldo_atual * 0.3, 10%Z);
      (0 < saldo_atual, 5%Z) ] 0%Z
    (score_risco saldo_atual burn cv).
Proof.
  unfold score_risco.
  cmp_lt 0 saldo_atual; cbn [andb]; [|ladder].
  cmp_lt burn (saldo_atual * 0.1); cmp_lt burn (saldo_atual * 0.2);
    cmp_lt burn (saldo_atual * 0.3); try lra; cbn [andb];
    cmp_bool (fl_lt cv (Fin 0.3)); cmp_bool (fl_lt cv (Fin 0.5)); ladder.
Qed.

End ClientScore.


(* ------------------------------------------------------------------ *)
(** ** Burn rate, runway and the cash-stress flag *)

Section Liquidity.
Import Dashboard.

Lemma negatives_sum (ds : list R) :
  sum (negatives ds) = - Spec.sum_abs_negative ds.
Proof.
  induction ds as [|d ds IH]; [simpl; lra|].
  unfold negatives in *. cbn [filter Spec.sum_abs_negative].
  cmp_lt d 0; destruct (Rlt_dec d 0); try lra.
  rewrite sum_cons, IH, Rabs_left by exact Hlt. lra.
Qed.

Lemma count_negative_zero (ds : list R) :
  Spec.count_negative ds = 0%nat <-> Forall (fun d => 0 <= d) ds.
Proof.
  induction ds as [|d ds IH]; cbn [Spec.count_negative].
  - split; [constructor|reflexivity].
  - destruct (Rlt_dec d 0) as [Hd|Hd]; split; intros H.
    + discriminate.
    + inversion H; subst. lra.
    + constructor; [lra|]. apply IH. exact H.
    + inversion H; subst. apply IH. assumption.
Qed.

Lemma burn_rate_none (ds : list R) :
  Spec.count_negative ds = 0%nat -> burn_rate ds = 0.
Proof.
  intros H. unfold burn_rate. rewrite negatives_count, H. reflexivity.
Qed.

Lemma burn_rate_some (ds : list R) :
  Spec.count_negative ds <> 0%nat ->
  burn_rate ds = Spec.sum_abs_negative ds / INR (Spec.count_negative ds)
  /\ 0 < burn_rate ds.
Proof.
  intros H. unfold burn_rate. rewrite negatives_count.
  destruct (Nat.ltb_spec 0 (Spec.count_negative ds)) as [Hpos|Hpos]; [|lia].
  assert (Hn : 0 < INR (Spec.count_negative ds)) by (apply lt_0_INR; lia).
  assert (Hs : sum (negatives ds) < 0).
  { apply sum_neg; [|apply negatives_all].
    intros Hnil. rewrite <- negatives_count, Hnil in H. now apply H. }
  assert (Hm : mean (negatives ds) < 0).
  { unfold mean. rewrite negatives_count. unfold Rdiv.
    pose proof (Rinv_0_lt_compat _ Hn). nra. }
  rewrite Rabs_left by exact Hm. split; [|lra].
  unfold mean. rewrite negatives_count, negatives_sum. field. lra.
Qed.

Lemma burn_rate_nonneg (ds : list R) : 0 <= burn_rate ds.
Proof.
  destruct (Nat.eq_dec (Spec.count_negative ds) 0) as [H|H].
  - rewrite burn_rate_none by exact H. lra.
  - destruct (burn_rate_some ds H). lra.
Qed.

Lemma runway_burning (saldo_atual burn : R) :
  0 < burn -> runway saldo_atual burn = Fin (saldo_atual / burn).
Proof.
  intros Hb. unfold runway. cmp_lt 0 burn; [reflexivity|lra].
Qed.

Lemma runway_idle (saldo_atual burn : R) :
  ~ 0 < burn -> runway saldo_atual burn = PosInf.
Proof.
  intros Hb. unfold runway. cmp_lt 0 burn; [contradiction|reflexivity].
Qed.

Lemma deltas_short (s : list R) : (length s <= 1)%nat -> Spec.deltas s = [].
Proof.
  intros Hs. unfold Spec.deltas.
  replace (length s - 1)%nat with 0%nat by lia. reflexivity.
Qed.

(** The indicators of the company page are those of the client score. *)
Lemma liquidez_same (ds : list R) (saldo_atual burn : R) :
  Liquidez.burn_rate_mes ds = burn_rate ds
  /\ Liquidez.runway_meses saldo_atual burn = runway saldo_atual burn.
Proof. split; reflexivity. Qed.

End Liquidity.

(** C5.  The burn rate of a balance series is the mean of the absolute
    values of its negative month-over-month deltas, and 0 when no delta is
    negative.  The runway is the current balance over the burn rate when
    the burn rate is positive and +inf otherwise.  A series without negative
    deltas, and so every series of at most one record, has burn rate 0 and
    runway +inf. *)
Theorem burn_rate_runway_spec (saldos : list R) :
  let deltas := Spec.deltas saldos in
  let saldo_atual := iloc_last saldos in
  let burn := Dashboard.burn_rate (diff saldos) in
  let runway := Dashboard.runway saldo_atual burn in
  (Spec.count_negative deltas <> 0%nat ->
   burn = Spec.sum_abs_negative deltas / INR (Spec.count_negative deltas)
   /\ 0 < burn)
  /\ (Spec.count_negative deltas = 0%nat -> burn = 0)
  /\ (0 < burn -> runway = Fin (saldo_atual / burn))
  /\ (~ 0 < burn -> runway = PosInf)
  /\ (Forall (fun d => 0 <= d) deltas -> burn = 0 /\ runway = PosInf)
  /\ ((length saldos <= 1)%nat ->
      deltas = [] /\ burn = 0 /\ runway = PosInf).
Proof.
  intros deltas saldo_atual burn runway.
  subst runway burn. rewrite diff_deltas. fold deltas.
  assert (Hidle : Forall (fun d => 0 <= d) deltas ->
                  Dashboard.burn_rate deltas = 0
                  /\ Dashboard.runway saldo_atual (Dashboard.burn_rate deltas)
                     = PosInf).
  { intros Hall. apply count_negative_zero in Hall.
    rewrite burn_rate_none by exact Hall.
    split; [reflexivity|]. apply runway_idle. lra. }
  split; [apply burn_rate_some|].
  split; [apply burn_rate_none|].
  split; [apply runway_burning|].
  split; [apply runway_idle|].
  split; [exact Hidle|].
  intros Hshort.
  assert (Hnil : deltas = []) by (apply deltas_short; exact Hshort).
  split; [exact Hnil|]. apply Hidle. rewrite Hnil. constructor.
Qed.

Lemma burn_rate_runway_spec_witness :
  Dashboard.burn_rate (diff [100; 80; 90; 60]) = (20 + 30) / 2
  /\ Dashboard.runway 60 (Dashboard.burn_rate (diff [100; 80; 90; 60]))
     = Fin (60 / Dashboard.burn_rate (diff [100; 80; 90; 60]))
  /\ Dashboard.burn_rate (diff [10; 20; 20]) = 0
  /\ Dashboard.runway 20 (Dashboard.burn_rate (diff [10; 20; 20])) = PosInf
  /\ Dashboard.runway 7 (Dashboard.burn_rate (diff [7])) = PosInf.
Proof.
  assert (Hcount : Spec.count_negative (Spec.deltas [100; 80; 90; 60]) = 2%nat).
  { unfold Spec.deltas. cbn [length Nat.sub seq map nth Spec.count_negative].
    repeat (destruct (Rlt_dec _ _); try lra). reflexivity. }
  assert (Habs : Spec.sum_abs_negative (Spec.deltas [100; 80; 90; 60]) = 20 + 30).
  { unfold Spec.deltas. cbn [length Nat.sub seq map nth Spec.sum_abs_negative].
    repeat (destruct (Rlt_dec _ _); try lra).
    rewrite !Rabs_left by lra. lra. }
  destruct (burn_rate_runway_spec [100; 80; 90; 60])
    as (Hsome & _ & Hrun & _).
  destruct (burn_rate_runway_spec [10; 20; 20]) as (_ & _ & _ & _ & Hidle & _).
  destruct (burn_rate_runway_spec [7]) as (_ & _ & _ & _ & _ & Hone).
  cbv zeta in *. rewrite Hcount, Habs in Hsome.
  destruct Hsome as [Hburn Hpos]; [discriminate|].
  split; [rewrite Hburn; simpl; lra|].
  split; [apply Hrun; exact Hpos|].
  assert (Hall : Forall (fun d => 0 <= d) (Spec.deltas [10; 20; 20])).
  { unfold Spec.deltas. cbn [length Nat.sub seq map nth].
    repeat constructor; lra. }
  split; [apply Hidle; exact Hall|].
  split; [apply Hidle; exact Hall|].
  apply Hone. simpl. lia.
Defined.


(* ------------------------------------------------------------------ *)
(** ** The cohorts of the latest month *)

Section Cohorts.
Import Dashboard.

Lemma fold_max_ge (d : Z) (l : list Z) (z : Z) :
  In z l -> (z <= fold_right Z.max d l)%Z.
Proof.
  induction l as [|a l IH]; [contradiction|].
  intros [->|Hin]; cbn [fold_right]; [lia|]. specialize (IH Hin). lia.
Qed.

Lemma fold_max_in (d : Z) (l : list Z) :
  fold_right Z.max d l = d \/ In (fold_right Z.max d l) l.
Proof.
  induction l as [|a l IH]; [now left|].
  cbn [fold_right]. destruct (Z.max_spec a (fold_right Z.max d l)) as [[_ ->]|[_ ->]].
  - destruct IH as [->|IH]; [now left|right; now right].
  - right. now left.
Qed.

(** The rows of the latest month: those whose period no row exceeds. *)
Lemma ultimo_mes_data_spec (df : list AnalisadaRow) (r : AnalisadaRow) :
  In r (ultimo_mes_data df)
  <-> In r df /\ forall r', In r' df -> (MES r' <= MES r)%Z.
Proof.
  unfold ultimo_mes_data. rewrite filter_In, Z.eqb_eq.
  set (m := fold_right Z.max (hd 0%Z (map MES df)) (map MES df)).
  assert (Hge : forall r', In r' df -> (MES r' <= m)%Z).
  { intros r' Hr'. apply fold_max_ge. now apply in_map. }
  split; intros [Hin H]; (split; [exact Hin|]).
  - intros r' Hr'. rewrite H. now apply Hge.
  - assert (Hm : In m (map MES df)).
    { destruct (fold_max_in (hd 0%Z (map MES df)) (map MES df)) as [Hd|Hd];
        fold m in Hd; [|exact Hd].
      rewrite Hd. destruct df as [|r0 df]; [contradiction|]. now left. }
    apply in_map_iff in Hm. destruct Hm as (r' & Hr' & Hin').
    specialize (H r' Hin'). specialize (Hge r Hin). lia.
Qed.

Lemma isin_two (a b s : string) :
  isin [a; b] s = true <-> s = a \/ s = b.
Proof.
  unfold isin. cbn [existsb]. rewrite !orb_true_iff, !String.eqb_eq.
  intuition discriminate.
Qed.

End Cohorts.

(** C9.  A row of the latest month is in the "ideal for credit" cohort
    exactly when its health is at least the 25th percentile, its risk is
    below the 75th percentile, its runway is at least 1, its stress flag is
    0, its volume growth is positive and its stage is Madura or
    Desenvolvimento; it is in the "high risk" cohort exactly when its health
    is at most the 25th percentile, its risk is at least the 75th
    percentile, its runway is below 3 or missing, its stress flag is 1, its
    volume growth is negative and its stage is Declínio or Declínio
    Persistente.  Each is one conjunction. *)
Theorem cohorts_spec (df_analisada : list Dashboard.AnalisadaRow)
  (r : Dashboard.AnalisadaRow) :
  In r (Dashboard.ultimo_mes_data df_analisada) ->
  (In r (Dashboard.empresas_ideais df_analisada) <->
   fl_ge (Dashboard.score_saude_model_0_100_lgbm r) (Dashboard.q25_health r)
   = true
   /\ fl_lt (Dashboard.score_dependencia_risco_0_100 r) (Dashboard.q75_risk r)
      = true
   /\ fl_ge (Dashboard.runway_meses r) (Fin 1) = true
   /\ fl_eq (Dashboard.flag_stress_caixa r) (Fin 0) = true
   /\ fl_gt (Dashboard.grow_volume_total_mes r) (Fin 0) = true
   /\ (Dashboard.estado_maturidade_hard r = "Madura"%string
       \/ Dashboard.estado_maturidade_hard r = "Desenvolvimento"%string))
  /\
  (In r (Dashboard.empresas_perigosas df_analisada) <->
   fl_le (Dashboard.score_saude_model_0_100_lgbm r) (Dashboard.q25_health r)
   = true
   /\ fl_ge (Dashboard.score_dependencia_risco_0_100 r) (Dashboard.q75_risk r)
      = true
   /\ (fl_lt (Dashboard.runway_meses r) (Fin 3) = true
       \/ Dashboard.runway_meses r = NaN)
   /\ fl_eq (Dashboard.flag_stress_caixa r) (Fin 1) = true
   /\ fl_lt (Dashboard.grow_volume_total_mes r) (Fin 0) = true
   /\ (Dashboard.estado_maturidade_hard r = "Declínio"%string
       \/ Dashboard.estado_maturidade_hard r
          = "Declínio Persistente"%string)).
Proof.
  intros Hlatest.
  unfold Dashboard.empresas_ideais, Dashboard.empresas_perigosas.
  rewrite !filter_In.
  unfold Dashboard.ideal_mask, Dashboard.perigosa_mask.
  rewrite !andb_true_iff, !isin_two, orb_true_iff.
  assert (Hna : Dashboard.isna (Dashboard.runway_meses r) = true
                <-> Dashboard.runway_meses r = NaN).
  { destruct (Dashboard.runway_meses r); simpl; split; congruence. }
  rewrite Hna. tauto.
Qed.

(* ------------------------------------------------------------------ *)
(** ** The life stage *)

Section LifeStage.
Import Dashboard.










End LifeStage.

(* ------------------------------------------------------------------ *)
(** ** The health score, exact and rounded *)

Section HealthExact.
Import Dashboard.








End HealthExact.

Section HealthBinary64.
Import Binary64.

(** The decimal literals of the weighted sum: 0.3 is 0x1.3333333333333p-2,
    0.25 and 0.5 are exact, 0.2 is 0x1.999999999999ap-3. *)
Lemma b64_literals :
  decimal 3 10 = S754_finite false 5404319552844595 (-54)
  /\ decimal 25 100 = S754_finite false 4503599627370496 (-54)
  /\ decimal 5 10 = S754_finite false 4503599627370496 (-53)
  /\ decimal 2 10 = S754_finite false 7205759403792794 (-55).
Proof. repeat split; vm_compute; reflexivity. Qed.


















End HealthBinary64.






(* ------------------------------------------------------------------ *)
(** ** Companies without rows *)

(** C8, as the code has it.  For a company id that no row carries,
    [calcular_momento_vida] returns the label N/A with score 0,
    [calcular_saude_empresa] returns score 0 with the category N/A, and
    [calcular_score_santander] returns the total 0 with an empty breakdown
    (it has no category).  The three are total functions: none of them
    fails. *)
Theorem scorers_absent_company
  (df_infos : list Dashboard.InfoRow) (df_transacoes : list Dashboard.TransRow)
  (cnpj : string) :
  (forall r, In r df_infos -> Dashboard.ID r <> cnpj) ->
  Dashboard.calcular_momento_vida df_infos cnpj = ("N/A"%string, 0%Z)
  /\ Dashboard.calcular_saude_empresa df_infos df_transacoes cnpj
     = (Fin 0, "N/A"%string)
  /\ Dashboard.calcular_score_santander df_infos df_transacoes cnpj
     = (0%Z, []).
Proof.
  intros Habs. pose proof (rows_of_empty df_infos cnpj Habs) as Hrows.
  unfold Dashboard.calcular_momento_vida, Dashboard.calcular_saude_empresa,
    Dashboard.calcular_score_santander.
  rewrite Hrows. repeat split.
Qed.

Lemma scorers_absent_company_witness :
  Dashboard.calcular_momento_vida Exemplo.df_infos "CNPJ_99999"
  = ("N/A"%string, 0%Z)
  /\ Dashboard.calcular_saude_empresa Exemplo.df_infos Exemplo.df_transacoes
       "CNPJ_99999"
     = (Fin 0, "N/A"%string)
  /\ Dashboard.calcular_score_santander Exemplo.df_infos
       Exemplo.df_transacoes "CNPJ_99999"
     = (0%Z, []).
Proof.
  apply (scorers_absent_company Exemplo.df_infos Exemplo.df_transacoes
           "CNPJ_99999").
  intros r Hin. simpl in Hin.
  repeat (destruct Hin as [<-|Hin]; [discriminate|]). contradiction.
Defined.

(** C8 as stated gives every scorer the category N/A.  What
    [calcular_score_santander] returns next to the score 0 of an absent
    company is the empty breakdown, not a category label. *)
Lemma calcular_score_santander_absent_breakdown :
  Dashboard.calcular_score_santander Exemplo.df_infos Exemplo.df_transacoes
    "CNPJ_99999"
  = (0%Z, [])
  /\ Spec.Breakdown
       (snd (Dashboard.calcular_score_santander Exemplo.df_infos
               Exemplo.df_transacoes "CNPJ_99999"))
     <> Spec.Label "N/A"
  /\ Dashboard.dict_get "Categoria"
       (snd (Dashboard.calcular_score_santander Exemplo.df_infos
               Exemplo.df_transacoes "CNPJ_99999"))
     = None.
Proof.
  split; [reflexivity|]. split; [discriminate|reflexivity].
Qed.

(* ------------------------------------------------------------------ *)
(** ** A negative mean balance *)



(* ------------------------------------------------------------------ *)
(** ** The properties on the sample data *)


Lemma cohorts_spec_witness :
  In Exemplo.ideal (Dashboard.empresas_ideais Exemplo.df_analisada)
  /\ In Exemplo.perigosa (Dashboard.empresas_perigosas Exemplo.df_analisada).
Proof.
  assert (Hlatest : forall r, r = Exemplo.ideal \/ r = Exemplo.perigosa ->
                              In r (Dashboard.ultimo_mes_data
                                      Exemplo.df_analisada)).
  { intros r Hr. apply ultimo_mes_data_spec. split.
    - unfold Exemplo.df_analisada.
      destruct Hr as [->| ->]; [right; left|right; right; left]; reflexivity.
    - intros r' Hr'. unfold Exemplo.df_analisada in Hr'.
      destruct Hr as [->| ->];
        repeat (destruct Hr' as [<-|Hr']; [simpl; lia|]); contradiction. }
  split.
  - apply (cohorts_spec Exemplo.df_analisada Exemplo.ideal);
      [apply Hlatest; now left|].
    unfold fl_ge, fl_gt. cbn.
    repeat split; try (apply Rleb_true; lra); try (apply Rltb_true; lra);
      try (apply Reqb_true; reflexivity).
    now left.
  - apply (cohorts_spec Exemplo.df_analisada Exemplo.perigosa);
      [apply Hlatest; now right|].
    unfold fl_ge, fl_gt. cbn.
    repeat split; try (apply Rleb_true; lra); try (apply Rltb_true; lra);
      try (apply Reqb_true; reflexivity).
    + now right.
    + now left.
Defined.

(* ------------------------------------------------------------------ *)
(** ** Grouped sums *)

Section Grouping.

Context {row : Type} (key : row -> string) (val : row -> R).

Lemma sum_app (l1 l2 : list R) : sum (l1 ++ l2) = sum l1 + sum l2.
Proof.
  induction l1 as [|x l1 IH]; simpl; [lra|]. rewrite IH. lra.
Qed.

Lemma groupby_sum_snoc (rows : list row) (r : row) :
  groupby_sum key val (rows ++ [r])
  = group_add (key r) (val r) (groupby_sum key val rows).
Proof. unfold groupby_sum. now rewrite fold_left_app. Qed.

Lemma group_add_total (k : string) (v : R) (groups : list (string * R)) :
  sum (map snd (group_add k v groups)) = sum (map snd groups) + v.
Proof.
  induction groups as [|[k' v'] groups IH]; cbn [group_add].
  - simpl. lra.
  - destruct (String.eqb k k'); cbn [map snd sum fold_right] in *.
    + lra.
    + fold (sum (map snd (group_add k v groups))). rewrite IH.
      fold (sum (map snd groups)). lra.
Qed.

Lemma group_add_lookup_same (k : string) (v : R)
  (groups : list (string * R)) :
  Spec.lookup k (group_add k v groups)
  = Some (match Spec.lookup k groups with Some v0 => v0 + v | None => v end).
Proof.
  induction groups as [|[k' v'] groups IH]; cbn [group_add Spec.lookup].
  - now rewrite String.eqb_refl.
  - destruct (String.eqb k k') eqn:Hk; cbn [Spec.lookup]; rewrite Hk;
      [reflexivity|exact IH].
Qed.

Lemma group_add_lookup_other (k k0 : string) (v : R)
  (groups : list (string * R)) :
  k0 <> k -> Spec.lookup k0 (group_add k v groups) = Spec.lookup k0 groups.
Proof.
  intros Hne. induction groups as [|[k' v'] groups IH];
    cbn [group_add Spec.lookup].
  - apply String.eqb_neq in Hne. now rewrite Hne.
  - destruct (String.eqb k k') eqn:Hk; cbn [Spec.lookup].
    + apply String.eqb_eq in Hk. subst k'.
      apply String.eqb_neq in Hne. now rewrite Hne.
    + now rewrite IH.
Qed.

Lemma group_add_keys (k k0 : string) (v : R) (groups : list (string * R)) :
  In k0 (map fst (group_add k v groups)) <-> k0 = k \/ In k0 (map fst groups).
Proof.
  induction groups as [|[k' v'] groups IH]; cbn [group_add map fst In].
  - intuition.
  - destruct (String.eqb_spec k k') as [->|Hne]; cbn [map fst In].
    + intuition.
    + rewrite IH. intuition.
Qed.

Lemma group_add_nodup (k : string) (v : R) (groups : list (string * R)) :
  NoDup (map fst groups) -> NoDup (map fst (group_add k v groups)).
Proof.
  induction groups as [|[k' v'] groups IH]; cbn [group_add map fst];
    intros Hnd.
  - constructor; [intros []|constructor].
  - inversion Hnd as [|x l Hnotin Hrest]; subst.
    destruct (String.eqb_spec k k') as [->|Hne]; cbn [map fst].
    + now constructor.
    + constructor; [|now apply IH].
      rewrite group_add_keys. intros [Heq|Hin]; [congruence|contradiction].
Qed.

Lemma group_add_positive (k : string) (v : R) (groups : list (string * R)) :
  0 < v -> Forall (fun x => 0 < x) (map snd groups) ->
  Forall (fun x => 0 < x) (map snd (group_add k v groups)).
Proof.
  intros Hv. induction groups as [|[k' v'] groups IH];
    cbn [group_add map snd]; intros Hall.
  - repeat constructor. exact Hv.
  - inversion Hall; subst.
    destruct (String.eqb k k'); cbn [map snd]; constructor;
      try assumption; [lra|now apply IH].
Qed.

(** The rows of one key. *)
Local Abbreviation rows_with k rows :=
  (filter (fun r => String.eqb (key r) k) rows).

Lemma rows_with_none (rows : list row) (k : string) :
  ~ In k (map key rows) -> rows_with k rows = [].
Proof.
  intros Hnin. induction rows as [|a rows IH]; [reflexivity|].
  cbn [filter]. destruct (String.eqb_spec (key a) k) as [E|E].
  - exfalso. apply Hnin. left. exact E.
  - apply IH. intros Hin. apply Hnin. now right.
Qed.

Lemma groupby_sum_lookup (rows : list row) (k : string) :
  Spec.lookup k (groupby_sum key val rows)
  = if in_dec string_dec k (map key rows)
    then Some (sum (map val (rows_with k rows)))
    else None.
Proof.
  induction rows as [|r rows IH] using rev_ind; [reflexivity|].
  rewrite groupby_sum_snoc.
  assert (Hsum : sum (map val (rows_with k (rows ++ [r])))
                 = sum (map val (rows_with k rows))
                   + (if String.eqb (key r) k then val r else 0)).
  { rewrite filter_app, map_app, sum_app. cbn [filter].
    destruct (String.eqb (key r) k); simpl; lra. }
  assert (Hmem : In k (map key (rows ++ [r]))
                 <-> In k (map key rows) \/ key r = k).
  { rewrite map_app, in_app_iff. simpl. tauto. }
  rewrite Hsum.
  destruct (String.eqb_spec (key r) k) as [Hk|Hk].
  - subst k. rewrite group_add_lookup_same, IH.
    destruct (in_dec string_dec (key r) (map key (rows ++ [r]))) as [_|Hout];
      [|exfalso; apply Hout, Hmem; now right].
    destruct (in_dec string_dec (key r) (map key rows)) as [Hin|Hnin].
    + reflexivity.
    + rewrite rows_with_none by exact Hnin. f_equal. simpl. lra.
  - rewrite group_add_lookup_other by congruence. rewrite IH.
    destruct (in_dec string_dec k (map key rows)) as [Hin|Hnin];
      destruct (in_dec string_dec k (map key (rows ++ [r]))) as [Hin'|Hnin'].
    + f_equal. lra.
    + exfalso. apply Hnin', Hmem. now left.
    + exfalso. apply Hmem in Hin'. destruct Hin'; [contradiction|congruence].
    + reflexivity.
Qed.

Lemma groupby_sum_total (rows : list row) :
  sum (map snd (groupby_sum key val rows)) = sum (map val rows).
Proof.
  induction rows as [|r rows IH] using rev_ind; [reflexivity|].
  rewrite groupby_sum_snoc, group_add_total, IH, map_app, sum_app.
  simpl. lra.
Qed.

Lemma groupby_sum_keys (rows : list row) (k : string) :
  In k (map fst (groupby_sum key val rows)) <-> In k (map key rows).
Proof.
  induction rows as [|r rows IH] using rev_ind; [reflexivity|].
  rewrite groupby_sum_snoc, group_add_keys, IH, map_app, in_app_iff.
  simpl. intuition.
Qed.

Lemma groupby_sum_nodup (rows : list row) :
  NoDup (map fst (groupby_sum key val rows)).
Proof.
  induction rows as [|r rows IH] using rev_ind; [constructor|].
  rewrite groupby_sum_snoc. now apply group_add_nodup.
Qed.

Lemma groupby_sum_positive (rows : list row) :
  Forall (fun r => 0 < val r) rows ->
  Forall (fun x => 0 < x) (map snd (groupby_sum key val rows)).
Proof.
  induction rows as [|r rows IH] using rev_ind; intros Hall; [constructor|].
  rewrite groupby_sum_snoc. apply Forall_app in Hall. destruct Hall as [Hr Hl].
  apply group_add_positive; [now inversion Hl|now apply IH].
Qed.

End Grouping.

(** The grouped sums of [rows.groupby(key)[val].sum()] hold one entry per
    key that occurs in the rows; the entry of a key is the sum of the values
    of the rows of that key, a key without rows has none; the entries add up
    to the sum of all the values. *)
Theorem groupby_sum_spec {row : Type} (key : row -> string) (val : row -> R)
  (rows : list row) :
  NoDup (map fst (groupby_sum key val rows))
  /\ (forall k : string,
        Spec.lookup k (groupby_sum key val rows)
        = if in_dec string_dec k (map key rows)
          then Some (sum (map val
                            (filter (fun r => String.eqb (key r) k) rows)))
          else None)
  /\ (forall k : string,
        In k (map fst (groupby_sum key val rows)) <-> In k (map key rows))
  /\ sum (map snd (groupby_sum key val rows)) = sum (map val rows).
Proof.
  split; [apply groupby_sum_nodup|].
  split; [intros k; apply groupby_sum_lookup|].
  split; [intros k; apply groupby_sum_keys|apply groupby_sum_total].
Qed.

(* ------------------------------------------------------------------ *)
(** ** The dependency risk *)

Section DependencyRisk.
Import Dashboard.

(** The transactions in which a company takes part. *)
Local Abbreviation envolve cnpj :=
  (fun t => String.eqb (ID_PGTO t) cnpj || String.eqb (ID_RCBE t) cnpj).

Lemma pagamentos_de_envolve (df : list TransRow) (cnpj : string) :
  pagamentos_de (filter (envolve cnpj) df) cnpj = pagamentos_de df cnpj.
Proof.
  unfold pagamentos_de. induction df as [|t df IH]; [reflexivity|].
  cbn [filter]. destruct (String.eqb (ID_PGTO t) cnpj) eqn:Hp; cbn [orb filter].
  - rewrite Hp. now rewrite IH.
  - destruct (String.eqb (ID_RCBE t) cnpj); cbn [filter];
      [rewrite Hp|]; exact IH.
Qed.

Lemma recebimentos_de_envolve (df : list TransRow) (cnpj : string) :
  recebimentos_de (filter (envolve cnpj) df) cnpj = recebimentos_de df cnpj.
Proof.
  unfold recebimentos_de. induction df as [|t df IH]; [reflexivity|].
  cbn [filter]. destruct (String.eqb (ID_RCBE t) cnpj) eqn:Hr;
    destruct (String.eqb (ID_PGTO t) cnpj); cbn [orb filter];
    rewrite ?Hr, ?IH; reflexivity.
Qed.

Lemma filter_nil_iff {A : Type} (f : A -> bool) (l : list A) :
  filter f l = [] <-> forall x, In x l -> f x = false.
Proof.
  induction l as [|a l IH]; cbn [filter].
  - split; [intros _ x []|reflexivity].
  - destruct (f a) eqn:Hfa; split; intros H.
    + discriminate.
    + specialize (H a (or_introl eq_refl)). congruence.
    + intros x [<-|Hx]; [exact Hfa|]. now apply IH.
    + apply IH. intros x Hx. apply H. now right.
Qed.

Lemma categoria_risco_fin (score : R) :
  (70 <= score -> categoria_risco (Fin score) = "Alto"%string)
  /\ (40 <= score < 70 -> categoria_risco (Fin score) = "Médio"%string)
  /\ (score < 40 -> categoria_risco (Fin score) = "Baixo"%string).
Proof.
  unfold categoria_risco, fl_ge. cbn [fl_le].
  cmp_le 70 score; cmp_le 40 score; repeat split; intros; try lra; reflexivity.
Qed.

Lemma categoria_risco_not_na (score : fl) :
  categoria_risco score <> "N/A"%string.
Proof.
  unfold categoria_risco.
  destruct (fl_ge score (Fin 70)); [discriminate|].
  destruct (fl_ge score (Fin 40)); discriminate.
Qed.

(** The score of a company that has transactions, before the category. *)
Lemma risco_score_fin (pagamentos recebimentos : list TransRow) :
  clip_0_100
    (fl_add
       (fl_add (fl_mul (Fin (hhi_medio pagamentos recebimentos * 100)) (Fin 0.5))
          (fl_mul
             (clip_0_100
                (Fin (100 - INR (num_parceiros pagamentos recebimentos) * 3)))
             (Fin 0.3)))
       (fl_mul
          (clip_0_100
             (Fin (100 - volume_total pagamentos recebimentos / 100000)))
          (Fin 0.2)))
  = Fin (Spec.clip
           (hhi_medio pagamentos recebimentos * 100 * 0.5
            + Spec.clip
                (100 - INR (num_parceiros pagamentos recebimentos) * 3) 0 100
              * 0.3
            + Spec.clip
                (100 - volume_total pagamentos recebimentos / 100000) 0 100
              * 0.2) 0 100).
Proof. rewrite !clip_0_100_fin. cbn [fl_mul fl_add]. apply clip_0_100_fin. Qed.

Lemma hhi_medio_range (pagamentos recebimentos : list TransRow) :
  Forall (fun t => 0 < VL t) pagamentos ->
  Forall (fun t => 0 < VL t) recebimentos ->
  0 <= hhi_medio pagamentos recebimentos <= 1.
Proof.
  intros Hp Hr. unfold hhi_medio.
  pose proof (calculate_hhi_range _ (groupby_sum_positive ID_RCBE VL _ Hp)).
  pose proof (calculate_hhi_range _ (groupby_sum_positive ID_PGTO VL _ Hr)).
  lra.
Qed.

Lemma groupby_sum_single {row : Type} (key : row -> string)
  (val : row -> R) (rows : list row) (p : string) :
  rows <> [] -> (forall r, In r rows -> key r = p) ->
  groupby_sum key val rows = [(p, sum (map val rows))].
Proof.
  induction rows as [|r rows IH] using rev_ind; [congruence|].
  intros _ Hall. rewrite groupby_sum_snoc, map_app, sum_app.
  assert (Hr : key r = p) by (apply Hall, in_app_iff; right; now left).
  rewrite Hr. destruct rows as [|r0 rows].
  - cbn. do 2 f_equal. lra.
  - rewrite IH; [|discriminate|].
    + cbn [group_add]. rewrite String.eqb_refl. do 2 f_equal. simpl. lra.
    + intros x Hx. apply Hall, in_app_iff. now left.
Qed.


Lemma hhi_single_side {row : Type} (key : row -> string) (val : row -> R)
  (rows : list row) (p : string) :
  rows <> [] -> (forall r, In r rows -> key r = p /\ 0 < val r) ->
  calculate_hhi (map snd (groupby_sum key val rows)) = 1.
Proof.
  intros Hne Hall.
  rewrite (groupby_sum_single key val rows p Hne)
    by (intros r Hr; apply Hall; exact Hr).
  cbn [map snd]. apply calculate_hhi_single.
  assert (0 < sum (map val rows)); [|lra].
  apply sum_pos; [destruct rows; [congruence|discriminate]|].
  apply Forall_forall. intros x Hx. apply in_map_iff in Hx.
  destruct Hx as (r & <- & Hr). now apply Hall.
Qed.

End DependencyRisk.

(** The dependency risk of any company is a number between 0 and 100.  Its
    category is N/A exactly when no transaction has the company as payer or
    receiver; otherwise it is Alto from 70, Médio from 40 and Baixo
    below. *)
Theorem calcular_risco_dependencia_range
  (df_transacoes : list Dashboard.TransRow) (cnpj : string) :
  exists (score : R) (categoria : string),
    Dashboard.calcular_risco_dependencia df_transacoes cnpj
    = (Fin score, categoria)
    /\ 0 <= score <= 100
    /\ (categoria = "N/A"%string <->
        forall t, In t df_transacoes ->
                  Dashboard.ID_PGTO t <> cnpj /\ Dashboard.ID_RCBE t <> cnpj)
    /\ (categoria = "N/A"%string -> score = 0)
    /\ (categoria <> "N/A"%string ->
        (70 <= score -> categoria = "Alto"%string)
        /\ (40 <= score < 70 -> categoria = "Médio"%string)
        /\ (score < 40 -> categoria = "Baixo"%string)).
Proof.
  unfold Dashboard.calcular_risco_dependencia.
  set (tc := filter _ df_transacoes).
  assert (Habsent : tc = [] <->
                    forall t, In t df_transacoes ->
                              Dashboard.ID_PGTO t <> cnpj
                              /\ Dashboard.ID_RCBE t <> cnpj).
  { unfold tc. rewrite filter_nil_iff. split; intros H t Ht.
    - specialize (H t Ht). apply orb_false_iff in H.
      rewrite !String.eqb_neq in H. exact H.
    - apply orb_false_iff. rewrite !String.eqb_neq. now apply H. }
  destruct tc as [|t0 tc'] eqn:Htc.
  - exists 0, "N/A"%string. cbn [length Nat.eqb].
    split; [reflexivity|]. split; [lra|].
    split; [split; [intros _; now apply Habsent|reflexivity]|].
    split; [reflexivity|congruence].
  - cbn [length Nat.eqb]. rewrite risco_score_fin.
    eexists. eexists. split; [reflexivity|].
    split; [apply clip_bounds|].
    split.
    { split; [intros Hna; now apply categoria_risco_not_na in Hna|].
      intros Hall. apply Habsent in Hall. discriminate. }
    split; [intros Hna; now apply categoria_risco_not_na in Hna|].
    intros _. apply categoria_risco_fin.
Qed.

Section DependencyRiskScore.
Import Dashboard.

(** The weighted sum behind the score of a company with transactions. *)
Local Abbreviation risco_ponderado pagamentos recebimentos :=
  (hhi_medio pagamentos recebimentos * 100 * 0.5
   + Spec.clip (100 - INR (num_parceiros pagamentos recebimentos) * 3) 0 100
     * 0.3
   + Spec.clip (100 - volume_total pagamentos recebimentos / 100000) 0 100
     * 0.2).

Lemma calcular_risco_dependencia_present (df : list TransRow)
  (cnpj : string) :
  (exists t, In t df /\ (ID_PGTO t = cnpj \/ ID_RCBE t = cnpj)) ->
  calcular_risco_dependencia df cnpj
  = (Fin (Spec.clip
            (risco_ponderado (pagamentos_de df cnpj) (recebimentos_de df cnpj))
            0 100),
     categoria_risco
       (Fin (Spec.clip
               (risco_ponderado (pagamentos_de df cnpj)
                  (recebimentos_de df cnpj)) 0 100))).
Proof.
  intros (t & Hin & Ht). unfold calcular_risco_dependencia.
  destruct (filter _ df) as [|t0 tc] eqn:Htc.
  - exfalso. rewrite filter_nil_iff in Htc. specialize (Htc t Hin).
    apply orb_false_iff in Htc. rewrite !String.eqb_neq in Htc. tauto.
  - cbn [length Nat.eqb]. rewrite <- Htc.
    rewrite pagamentos_de_envolve, recebimentos_de_envolve, risco_score_fin.
    reflexivity.
Qed.

Lemma num_parceiros_positive (pagamentos recebimentos : list TransRow) :
  pagamentos <> [] \/ recebimentos <> [] ->
  (1 <= num_parceiros pagamentos recebimentos)%nat.
Proof.
  intros Hne. unfold num_parceiros.
  set (l := (map ID_RCBE pagamentos ++ map ID_PGTO recebimentos)%list).
  assert (Hl : exists x, In x l).
  { unfold l. destruct Hne as [Hp|Hr].
    - destruct pagamentos as [|t ?]; [congruence|].
      exists (ID_RCBE t). apply in_app_iff. left. now left.
    - destruct recebimentos as [|t ?]; [congruence|].
      exists (ID_PGTO t). apply in_app_iff. right. now left. }
  destruct Hl as [x Hx]. apply (nodup_In string_dec) in Hx.
  destruct (nodup string_dec l); [contradiction|simpl; lia].
Qed.

Lemma sides_present (df : list TransRow) (cnpj : string) :
  (exists t, In t df /\ (ID_PGTO t = cnpj \/ ID_RCBE t = cnpj)) ->
  pagamentos_de df cnpj <> [] \/ recebimentos_de df cnpj <> [].
Proof.
  intros (t & Hin & [Hp|Hr]); [left|right]; intros Hnil;
    unfold pagamentos_de, recebimentos_de in Hnil;
    rewrite filter_nil_iff in Hnil; specialize (Hnil t Hin);
    apply String.eqb_neq in Hnil; contradiction.
Qed.

Lemma sides_positive (df : list TransRow) (cnpj : string) :
  (forall t, In t df -> 0 < VL t) ->
  Forall (fun t => 0 < VL t) (pagamentos_de df cnpj)
  /\ Forall (fun t => 0 < VL t) (recebimentos_de df cnpj).
Proof.
  intros Hpos. split; apply Forall_forall; intros t Ht;
    apply filter_In in Ht; apply Hpos, Ht.
Qed.

Lemma volume_total_positive (pagamentos recebimentos : list TransRow) :
  Forall (fun t => 0 < VL t) pagamentos ->
  Forall (fun t => 0 < VL t) recebimentos ->
  pagamentos <> [] \/ recebimentos <> [] ->
  0 < volume_total pagamentos recebimentos.
Proof.
  intros Hp Hr Hne. unfold volume_total.
  assert (Hs : forall l, Forall (fun t => 0 < VL t) l -> 0 <= sum (map VL l)).
  { intros l Hl. apply sum_nonneg. apply Forall_forall. intros x Hx.
    apply in_map_iff in Hx. destruct Hx as (t & <- & Ht).
    rewrite Forall_forall in Hl. specialize (Hl t Ht). simpl in Hl. lra. }
  assert (Hs' : forall l, Forall (fun t => 0 < VL t) l -> l <> [] ->
                          0 < sum (map VL l)).
  { intros l Hl Hn. apply sum_pos; [destruct l; [congruence|discriminate]|].
    apply Forall_forall. intros x Hx.
    apply in_map_iff in Hx. destruct Hx as (t & <- & Ht).
    rewrite Forall_forall in Hl. now apply Hl. }
  pose proof (Hs _ Hp). pose proof (Hs _ Hr).
  destruct Hne as [Hn|Hn]; [pose proof (Hs' _ Hp Hn)|pose proof (Hs' _ Hr Hn)];
    lra.
Qed.

End DependencyRiskScore.

(** When every amount is positive, the averaged concentration index of a
    company with transactions lies between 0 and 1 and the weighted sum
    [50 * hhi + 0.3 * partners + 0.2 * volume] already lies between 0 and
    100: the final clip of [calcular_risco_dependencia] changes nothing, and
    the score stays below 100. *)
Theorem calcular_risco_dependencia_unclipped
  (df_transacoes : list Dashboard.TransRow) (cnpj : string) :
  (forall t, In t df_transacoes -> 0 < Dashboard.VL t) ->
  (exists t, In t df_transacoes
             /\ (Dashboard.ID_PGTO t = cnpj \/ Dashboard.ID_RCBE t = cnpj)) ->
  let pagamentos := Dashboard.pagamentos_de df_transacoes cnpj in
  let recebimentos := Dashboard.recebimentos_de df_transacoes cnpj in
  let hhi := Dashboard.hhi_medio pagamentos recebimentos in
  let parceiros := Dashboard.num_parceiros pagamentos recebimentos in
  let volume := Dashboard.volume_total pagamentos recebimentos in
  let score :=
    50 * hhi + 0.3 * Spec.clip (100 - 3 * INR parceiros) 0 100
    + 0.2 * Spec.clip (100 - volume / 100000) 0 100 in
  0 <= hhi <= 1
  /\ (1 <= parceiros)%nat
  /\ 0 < volume
  /\ fst (Dashboard.calcular_risco_dependencia df_transacoes cnpj) = Fin score
  /\ 0 <= score < 100.
Proof.
  intros Hpos Hex pagamentos recebimentos hhi parceiros volume score.
  destruct (sides_positive df_transacoes cnpj Hpos) as [Hp Hr].
  pose proof (sides_present df_transacoes cnpj Hex) as Hne.
  pose proof (hhi_medio_range _ _ Hp Hr) as Hhhi.
  pose proof (num_parceiros_positive _ _ Hne) as Hn.
  pose proof (volume_total_positive _ _ Hp Hr Hne) as Hvol.
  fold pagamentos recebimentos in Hhhi, Hn, Hvol.
  fold hhi in Hhhi. fold parceiros in Hn. fold volume in Hvol.
  assert (Hsp : 0 <= Spec.clip (100 - 3 * INR parceiros) 0 100 <= 97).
  { assert (1 <= INR parceiros) by (apply (le_INR 1); exact Hn).
    pose proof (clip_bounds (100 - 3 * INR parceiros)) as Hb.
    destruct (Rle_dec 0 (100 - 3 * INR parceiros)).
    - rewrite clip_inside by lra. lra.
    - rewrite clip_below by lra. lra. }
  assert (Hsv : 0 <= Spec.clip (100 - volume / 100000) 0 100 < 100).
  { pose proof (clip_bounds (100 - volume / 100000)) as Hb.
    destruct (Rle_dec 0 (100 - volume / 100000)).
    - rewrite clip_inside by lra. lra.
    - rewrite clip_below by lra. lra. }
  assert (Hscore : 0 <= score < 100) by (unfold score; lra).
  split; [exact Hhhi|]. split; [exact Hn|]. split; [exact Hvol|].
  split; [|exact Hscore].
  rewrite calcular_risco_dependencia_present by exact Hex. cbn [fst].
  fold pagamentos recebimentos hhi parceiros volume. f_equal.
  replace (hhi * 100 * 0.5
           + Spec.clip (100 - INR parceiros * 3) 0 100 * 0.3
           + Spec.clip (100 - volume / 100000) 0 100 * 0.2) with score.
  - apply clip_inside. lra.
  - unfold score. replace (INR parceiros * 3) with (3 * INR parceiros) by ring.
    lra.
Qed.

Lemma calcular_risco_dependencia_unclipped_witness :
  exists score : R,
    fst (Dashboard.calcular_risco_dependencia Exemplo.df_transacoes
           "CNPJ_00001") = Fin score
    /\ 0 <= score < 100.
Proof.
  eexists. 
  apply (calcular_risco_dependencia_unclipped Exemplo.df_transacoes
           "CNPJ_00001").
  - intros t Ht. unfold Exemplo.df_transacoes in Ht.
    repeat (destruct Ht as [<-|Ht]; [simpl; lra|]). contradiction.
  - eexists. split; [left; reflexivity|]. left. reflexivity.
Defined.

Section SingleCounterparty.
Import Dashboard.

Lemma pagamentos_witness (df : list TransRow) (cnpj : string) :
  pagamentos_de df cnpj <> [] ->
  exists t, In t df /\ (ID_PGTO t = cnpj \/ ID_RCBE t = cnpj).
Proof.
  intros Hne. destruct (pagamentos_de df cnpj) as [|t l] eqn:Hp; [congruence|].
  assert (Hin : In t (pagamentos_de df cnpj)) by (rewrite Hp; now left).
  apply filter_In in Hin. destruct Hin as [Hin Heq].
  apply String.eqb_eq in Heq. exists t. tauto.
Qed.

Lemma categoria_risco_alto (score : R) :
  categoria_risco (Fin score) = "Alto"%string <-> 70 <= score.
Proof.
  unfold categoria_risco, fl_ge. cbn [fl_le].
  cmp_le 70 score; [tauto|].
  cmp_le 40 score; split; intros H; try discriminate; lra.
Qed.


End SingleCounterparty.



(** A company that pays a single counterparty and is paid by a single
    counterparty has an averaged concentration index of 1 and the category
    Alto, whatever its volume. *)
Theorem risco_single_both_sides
  (df_transacoes : list Dashboard.TransRow) (cnpj p q : string) :
  let pagamentos := Dashboard.pagamentos_de df_transacoes cnpj in
  let recebimentos := Dashboard.recebimentos_de df_transacoes cnpj in
  pagamentos <> [] ->
  recebimentos <> [] ->
  (forall t, In t pagamentos -> Dashboard.ID_RCBE t = p /\ 0 < Dashboard.VL t) ->
  (forall t, In t recebimentos ->
             Dashboard.ID_PGTO t = q /\ 0 < Dashboard.VL t) ->
  Dashboard.hhi_medio pagamentos recebimentos = 1
  /\ (Dashboard.num_parceiros pagamentos recebimentos <= 2)%nat
  /\ snd (Dashboard.calcular_risco_dependencia df_transacoes cnpj)
     = "Alto"%string.
Proof.
  intros pagamentos recebimentos Hp Hr Hallp Hallr.
  assert (Hhhi : Dashboard.hhi_medio pagamentos recebimentos = 1).
  { unfold Dashboard.hhi_medio.
    rewrite (hhi_single_side Dashboard.ID_RCBE Dashboard.VL pagamentos p Hp Hallp).
    rewrite (hhi_single_side Dashboard.ID_PGTO Dashboard.VL recebimentos q Hr Hallr).
    lra. }
  assert (Hn : (Dashboard.num_parceiros pagamentos recebimentos <= 2)%nat).
  { unfold Dashboard.num_parceiros.
    apply (NoDup_incl_length (l' := [p; q])); [apply NoDup_nodup|].
    intros x Hx. apply nodup_In, in_app_iff in Hx.
    destruct Hx as [Hx|Hx]; apply in_map_iff in Hx;
      destruct Hx as (t & <- & Ht).
    - left. symmetry. now apply Hallp.
    - right. left. symmetry. now apply Hallr. }
  split; [exact Hhhi|]. split; [exact Hn|].
  rewrite (calcular_risco_dependencia_present df_transacoes cnpj)
    by (apply pagamentos_witness; exact Hp).
  fold pagamentos recebimentos. rewrite Hhhi. cbn [snd].
  apply categoria_risco_alto.
  assert (Hn' : INR (Dashboard.num_parceiros pagamentos recebimentos) <= 2)
    by (apply (le_INR _ 2); exact Hn).
  pose proof (pos_INR (Dashboard.num_parceiros pagamentos recebimentos)).
  rewrite (clip_inside (100 - _ * 3)) by lra.
  pose proof (clip_bounds
                (100 - Dashboard.volume_total pagamentos recebimentos / 100000)).
  rewrite clip_inside; lra.
Qed.

Lemma risco_single_both_sides_witness :
  snd (Dashboard.calcular_risco_dependencia Exemplo.df_transacoes "CNPJ_00001")
  = "Alto"%string.
Proof.
  apply (risco_single_both_sides Exemplo.df_transacoes "CNPJ_00001"
           "CNPJ_00002" "CNPJ_00002").
  - discriminate.
  - discriminate.
  - intros t Ht. cbn in Ht.
    repeat (destruct Ht as [<-|Ht]; [split; [reflexivity|simpl; lra]|]).
    contradiction.
  - intros t Ht. cbn in Ht.
    repeat (destruct Ht as [<-|Ht]; [split; [reflexivity|simpl; lra]|]).
    contradiction.
Defined.

(* ------------------------------------------------------------------ *)
(** ** More on the health score *)

Section HealthMore.
Import Dashboard.

Lemma count_positive_le (ds : list R) :
  (Spec.count_positive ds <= length ds)%nat.
Proof.
  induction ds as [|d ds IH]; cbn [Spec.count_positive length]; [lia|].
  destruct (Rlt_dec 0 d); lia.
Qed.

Lemma trend_subscore_range (saldos : list R) :
  0 <= Spec.trend_subscore saldos <= 100.
Proof.
  unfold Spec.trend_subscore. destruct (lt_dec (length saldos) 2); [lra|].
  set (ds := Spec.deltas saldos).
  assert (Hlen : (1 <= length ds)%nat).
  { unfold ds, Spec.deltas. rewrite length_map, length_seq. lia. }
  pose proof (count_positive_le ds) as Hle.
  apply le_INR in Hle. apply (le_INR 1) in Hlen. simpl in Hlen.
  pose proof (pos_INR (Spec.count_positive ds)) as Hpos.
  assert (Hinv : 0 < / INR (length ds)) by (apply Rinv_0_lt_compat; lra).
  unfold Rdiv. split.
  - apply Rmult_le_pos; [lra|lra].
  - apply (Rmult_le_reg_r (INR (length ds))); [lra|].
    rewrite Rmult_assoc, Rinv_l by lra. lra.
Qed.

Lemma balance_subscore_range (balance revenue : R) :
  0 <= Spec.balance_subscore balance revenue <= 100.
Proof.
  unfold Spec.balance_subscore. destruct (Req_dec_T revenue 0); [lra|].
  apply clip_bounds.
Qed.

Lemma crescimento_saldo_one (b : R) : crescimento_saldo [b] = 0.
Proof.
  unfold crescimento_saldo, iloc_first, iloc_last. cbn [hd last].
  cmp_eq b 0; cbn [negb]; [reflexivity|]. unfold Rdiv. ring.
Qed.

Lemma score_estabilidade_one (b : R) : score_estabilidade [b] = Fin 0.
Proof.
  destruct (Req_dec_T (mean [b]) 0) as [Hm|Hm].
  - rewrite (score_estabilidade_fin [b] 1) by (now apply cv_saldo_mean_zero).
    unfold Spec.stability_subscore. f_equal. rewrite clip_inside; lra.
  - apply score_estabilidade_nan. apply cv_saldo_short; [simpl; lia|exact Hm].
Qed.

End HealthMore.

(** A company with a single monthly record gets the health score
    [25 + 0.25 * position]: its growth sub-score is 50, its stability
    sub-score is 0 (the standard deviation of one value is NaN) and its
    trend sub-score is 50.  The score lies between 25 and 50 and the
    category is always Baixa. *)
Theorem calcular_saude_empresa_one_row
  (df_infos : list Dashboard.InfoRow) (df_transacoes : list Dashboard.TransRow)
  (cnpj : string) (r : Dashboard.InfoRow) :
  Dashboard.rows_of df_infos cnpj = [r] ->
  let position :=
    Spec.balance_subscore (Dashboard.VL_SLDO r) (Dashboard.VL_FATU r) in
  Dashboard.calcular_saude_empresa df_infos df_transacoes cnpj
  = (Fin (25 + 0.25 * position), "Baixa"%string)
  /\ 25 <= 25 + 0.25 * position <= 50.
Proof.
  intros Hrows position.
  pose proof (balance_subscore_range (Dashboard.VL_SLDO r)
                (Dashboard.VL_FATU r)) as Hpos.
  fold position in Hpos.
  split; [|lra].
  unfold Dashboard.calcular_saude_empresa. rewrite Hrows.
  cbn [length Nat.eqb map]. unfold iloc_last, iloc_first. cbn [last hd].
  unfold Dashboard.score_crescimento.
  rewrite crescimento_saldo_one, clip_0_100_fin, score_estabilidade_one,
    score_posicao_spec.
  unfold Dashboard.score_tendencia. cbn [length Nat.ltb Nat.leb].
  cbn [fl_mul fl_add]. rewrite clip_0_100_fin. fold position.
  rewrite (clip_inside (50 + 0 * 2)) by lra.
  assert (Hs : Spec.clip
                 ((50 + 0 * 2) * 0.3 + 0 * 0.25 + position * 0.25 + 50 * 0.2)
                 0 100 = 25 + 0.25 * position).
  { rewrite clip_inside; lra. }
  rewrite Hs. f_equal.
  apply categoria_saude_fin. lra.
Qed.

Lemma calcular_saude_empresa_one_row_witness :
  snd (Dashboard.calcular_saude_empresa
         [ {| Dashboard.ID := "A"; Dashboard.VL_SLDO := 900;
              Dashboard.VL_FATU := 1000 |} ] [] "A")
  = "Baixa"%string.
Proof.
  pose proof (calcular_saude_empresa_one_row
                [ {| Dashboard.ID := "A"; Dashboard.VL_SLDO := 900;
                     Dashboard.VL_FATU := 1000 |} ] [] "A" _ eq_refl)
    as [Hres _].
  rewrite Hres. reflexivity.
Defined.

(** For a company that has rows the weighted sum of the four sub-scores of
    [calcular_saude_empresa] already lies between 0 and 100, each sub-score
    being between 0 and 100: the final clip changes nothing. *)
Theorem calcular_saude_empresa_unclipped
  (df_infos : list Dashboard.InfoRow) (df_transacoes : list Dashboard.TransRow)
  (cnpj : string) :
  Dashboard.rows_of df_infos cnpj <> [] ->
  let dados_cnpj := Dashboard.rows_of df_infos cnpj in
  let saldos := map Dashboard.VL_SLDO dados_cnpj in
  exists growth stability position trend : R,
    Dashboard.score_crescimento saldos = Fin growth
    /\ Dashboard.score_estabilidade saldos = Fin stability
    /\ Dashboard.score_posicao (iloc_last saldos)
         (iloc_first (map Dashboard.VL_FATU dados_cnpj)) = Fin position
    /\ Dashboard.score_tendencia saldos = Fin trend
    /\ 0 <= growth <= 100 /\ 0 <= stability <= 100
    /\ 0 <= position <= 100 /\ 0 <= trend <= 100
    /\ fst (Dashboard.calcular_saude_empresa df_infos df_transacoes cnpj)
       = Fin (growth * 0.3 + stability * 0.25 + position * 0.25
              + trend * 0.2).
Proof.
  intros Hne dados_cnpj saldos.
  assert (Hst : exists stability,
             Dashboard.score_estabilidade saldos = Fin stability
             /\ 0 <= stability <= 100).
  { destruct (cv_saldo_cases saldos) as [Hnan|[cv Hcv]].
    - exists 0. split; [now apply score_estabilidade_nan|lra].
    - exists (Spec.stability_subscore cv).
      split; [now apply score_estabilidade_fin|apply clip_bounds]. }
  destruct Hst as (stability & Hst & Hsr).
  exists (Spec.growth_subscore (Dashboard.crescimento_saldo saldos)), stability,
    (Spec.balance_subscore (iloc_last saldos)
       (iloc_first (map Dashboard.VL_FATU dados_cnpj))),
    (Spec.trend_subscore saldos).
  pose proof (clip_bounds (50 + Dashboard.crescimento_saldo saldos * 2)) as Hg.
  pose proof (balance_subscore_range (iloc_last saldos)
                (iloc_first (map Dashboard.VL_FATU dados_cnpj))) as Hp.
  pose proof (trend_subscore_range saldos) as Ht.
  fold (Spec.growth_subscore (Dashboard.crescimento_saldo saldos)) in Hg.
  split; [apply score_crescimento_spec|]. split; [exact Hst|].
  split; [apply score_posicao_spec|]. split; [apply score_tendencia_spec|].
  repeat (split; [assumption|]).
  unfold Dashboard.calcular_saude_empresa.
  rewrite rows_of_nonempty by exact Hne. cbn [fst].
  fold dados_cnpj. fold saldos.
  rewrite score_crescimento_spec, Hst, score_posicao_spec,
    score_tendencia_spec.
  cbn [fl_mul fl_add]. rewrite clip_0_100_fin. f_equal.
  apply clip_inside. lra.
Qed.

Lemma calcular_saude_empresa_unclipped_witness :
  exists score : R,
    fst (Dashboard.calcular_saude_empresa Exemplo.df_infos
           Exemplo.df_transacoes "CNPJ_00001") = Fin score.
Proof.
  destruct (calcular_saude_empresa_unclipped Exemplo.df_infos
              Exemplo.df_transacoes "CNPJ_00001")
    as (g & s & p & t & _ & _ & _ & _ & _ & _ & _ & _ & Hres).
  - discriminate.
  - eexists. exact Hres.
Defined.

(* ------------------------------------------------------------------ *)
(** ** More on the Santander client score *)

Section ClientScoreMore.
Import Dashboard.

Lemma calcular_score_santander_present (df_infos : list InfoRow)
  (df_transacoes : list TransRow) (cnpj : string) :
  rows_of df_infos cnpj <> [] ->
  forall liquidez relacionamentos tendencias atividade risco : Z,
    dimensoes (rows_of df_infos cnpj) df_transacoes cnpj
    = (liquidez, relacionamentos, tendencias, atividade, risco) ->
    calcular_score_santander df_infos df_transacoes cnpj
    = ((liquidez + relacionamentos + tendencias + atividade + risco)%Z,
       [("Liquidez"%string, liquidez);
        ("Relacionamentos"%string, relacionamentos);
        ("Tendências"%string, tendencias);
        ("Atividade"%string, atividade);
        ("Risco"%string, risco);
        ("Total"%string,
         (liquidez + relacionamentos + tendencias + atividade + risco)%Z)]).
Proof.
  intros Hne l r t a k Hd. unfold calcular_score_santander.
  rewrite rows_of_nonempty by exact Hne. rewrite Hd. reflexivity.
Qed.

(** The tiers of liquidity and of risk read the same balance and burn
    rate, so they constrain each other. *)
Lemma liquidez_risco_tiers (saldo_atual burn : R) (cv : fl) :
  0 <= burn ->
  let l := score_liquidez saldo_atual (runway saldo_atual burn) in
  let k := score_risco saldo_atual burn cv in
  (saldo_atual <= 0 -> (l = 0 /\ k = 0)%Z)
  /\ (0 < saldo_atual -> (5 <= l /\ 5 <= k)%Z)
  /\ (15 <= l -> 10 <= k)%Z
  /\ (10 <= k -> 10 <= l)%Z
  /\ (k = 20 -> 15 <= l)%Z.
Proof.
  intros Hburn l k. subst l k. unfold score_liquidez, score_risco, runway.
  cmp_lt 0 saldo_atual; cbn [andb]; [|repeat split; intros; (lra || lia)].
  cmp_lt 0 burn; unfold fl_gt; cbn [fl_lt].
  - set (q := saldo_atual / burn).
    assert (Hq : saldo_atual = q * burn) by (unfold q; field; lra).
    cmp_lt 12 q; cmp_lt 6 q; cmp_lt 3 q; try lra;
      cmp_lt burn (saldo_atual * 0.1); cmp_lt burn (saldo_atual * 0.2);
      cmp_lt burn (saldo_atual * 0.3); try nra; cbn [andb];
      destruct (fl_lt cv (Fin 0.3)); destruct (fl_lt cv (Fin 0.5));
      repeat split; intros; (lra || lia).
  - assert (burn = 0) by lra. subst burn.
    cmp_lt 0 (saldo_atual * 0.1); cmp_lt 0 (saldo_atual * 0.2);
      cmp_lt 0 (saldo_atual * 0.3); try lra; cbn [andb];
      destruct (fl_lt cv (Fin 0.3)); destruct (fl_lt cv (Fin 0.5));
      repeat split; intros; (lra || lia).
Qed.

Lemma dimension_tiers (saldo_atual variacao burn volume hhi : R)
  (run cv : fl) (parceiros idade : nat) :
  Spec.tier (score_liquidez saldo_atual run)
  /\ Spec.tier (score_relacionamentos parceiros hhi)
  /\ Spec.tier (score_tendencias variacao saldo_atual cv)
  /\ Spec.tier (score_atividade volume idade)
  /\ Spec.tier (score_risco saldo_atual burn cv).
Proof.
  assert (Hrules : forall c1 c2 c3 c4 : Prop,
             Forall (fun rule : Prop * Z => Spec.tier (snd rule))
               [(c1, 20%Z); (c2, 15%Z); (c3, 10%Z); (c4, 5%Z)]).
  { intros. repeat constructor; unfold Spec.tier; simpl; tauto. }
  assert (H0 : Spec.tier 0%Z) by (unfold Spec.tier; simpl; tauto).
  repeat split.
  - exact (first_match_tier _ _ _ (score_liquidez_ladder _ _)
             (Hrules _ _ _ _) H0).
  - exact (first_match_tier _ _ _ (score_relacionamentos_ladder _ _)
             (Hrules _ _ _ _) H0).
  - exact (first_match_tier _ _ _ (score_tendencias_ladder _ _ _)
             (Hrules _ _ _ _) H0).
  - exact (first_match_tier _ _ _ (score_atividade_ladder _ _)
             (Hrules _ _ _ _) H0).
  - exact (first_match_tier _ _ _ (score_risco_ladder _ _ _)
             (Hrules _ _ _ _) H0).
Qed.

End ClientScoreMore.

(** In the breakdown of [calcular_score_santander] the liquidity and risk
    dimensions move together.  With a current balance that is not positive
    both are 0 and the total is at most 60; with a positive balance both
    are at least 5 and the total at least 10.  A liquidity of 15 or more
    forces a risk of 10 or more, a risk of 10 or more forces a liquidity of
    10 or more, and a risk of 20 forces a liquidity of 15 or more.  The
    total is a multiple of 5. *)
Theorem calcular_score_santander_liquidez_risco
  (df_infos : list Dashboard.InfoRow) (df_transacoes : list Dashboard.TransRow)
  (cnpj : string) :
  Dashboard.rows_of df_infos cnpj <> [] ->
  let saldo_atual :=
    iloc_last (map Dashboard.VL_SLDO (Dashboard.rows_of df_infos cnpj)) in
  exists (total liquidez risco : Z) (detalhamento : list (string * Z)),
    Dashboard.calcular_score_santander df_infos df_transacoes cnpj
    = (total, detalhamento)
    /\ Dashboard.dict_get "Liquidez" detalhamento = Some liquidez
    /\ Dashboard.dict_get "Risco" detalhamento = Some risco
    /\ Dashboard.dict_get "Total" detalhamento = Some total
    /\ (saldo_atual <= 0 ->
        (liquidez = 0 /\ risco = 0 /\ total <= 60)%Z)
    /\ (0 < saldo_atual ->
        (5 <= liquidez /\ 5 <= risco /\ 10 <= total)%Z)
    /\ (15 <= liquidez -> 10 <= risco)%Z
    /\ (10 <= risco -> 10 <= liquidez)%Z
    /\ (risco = 20 -> 15 <= liquidez)%Z
    /\ (total mod 5 = 0)%Z.
Proof.
  intros Hne saldo_atual.
  destruct (Dashboard.dimensoes (Dashboard.rows_of df_infos cnpj)
              df_transacoes cnpj) as [[[[l r] t] a] k] eqn:Hd.
  rewrite (calcular_score_santander_present _ _ _ Hne _ _ _ _ _ Hd).
  unfold Dashboard.dimensoes in Hd. injection Hd as Hl Hr Ht Ha Hk.
  fold saldo_atual in Hl, Ht, Hk.
  set (saldos := map Dashboard.VL_SLDO (Dashboard.rows_of df_infos cnpj))
    in *.
  pose proof (liquidez_risco_tiers saldo_atual
                (Dashboard.burn_rate (diff saldos))
                (Dashboard.cv_saldo saldos) (burn_rate_nonneg _)) as Hrel.
  cbv zeta in Hrel. rewrite Hl, Hk in Hrel.
  destruct Hrel as (Hneg & Hpos & H1 & H2 & H3).
  pose proof (dimension_tiers saldo_atual
                (saldo_atual - iloc_first saldos)
                (Dashboard.burn_rate (diff saldos))
                (Dashboard.volume_total
                   (Dashboard.pagamentos_de df_transacoes cnpj)
                   (Dashboard.recebimentos_de df_transacoes cnpj))
                (Dashboard.hhi_medio
                   (Dashboard.pagamentos_de df_transacoes cnpj)
                   (Dashboard.recebimentos_de df_transacoes cnpj))
                (Dashboard.runway saldo_atual
                   (Dashboard.burn_rate (diff saldos)))
                (Dashboard.cv_saldo saldos)
                (Dashboard.num_parceiros
                   (Dashboard.pagamentos_de df_transacoes cnpj)
                   (Dashboard.recebimentos_de df_transacoes cnpj))
                (length (Dashboard.rows_of df_infos cnpj)))
    as (Tl & Tr & Tt & Ta & Tk).
  rewrite Hl in Tl. rewrite Hr in Tr. rewrite Ht in Tt. rewrite Ha in Ta.
  rewrite Hk in Tk.
  unfold Spec.tier in Tl, Tr, Tt, Ta, Tk. simpl in Tl, Tr, Tt, Ta, Tk.
  exists (l + r + t + a + k)%Z, l, k. eexists.
  split; [reflexivity|]. split; [reflexivity|]. split; [reflexivity|].
  split; [reflexivity|].
  split; [intros Hs; specialize (Hneg Hs); lia|].
  split; [intros Hs; specialize (Hpos Hs); lia|].
  split; [exact H1|]. split; [exact H2|]. split; [exact H3|].
  destruct Tl as [<-|[<-|[<-|[<-|[<-|[]]]]]];
    destruct Tr as [<-|[<-|[<-|[<-|[<-|[]]]]]];
    destruct Tt as [<-|[<-|[<-|[<-|[<-|[]]]]]];
    destruct Ta as [<-|[<-|[<-|[<-|[<-|[]]]]]];
    destruct Tk as [<-|[<-|[<-|[<-|[<-|[]]]]]]; reflexivity.
Qed.

Lemma calcular_score_santander_liquidez_risco_witness :
  exists (total : Z) (detalhamento : list (string * Z)),
    Dashboard.calcular_score_santander Exemplo.df_infos Exemplo.df_transacoes
      "CNPJ_00002"
    = (total, detalhamento)
    /\ Dashboard.dict_get "Liquidez" detalhamento = Some 0%Z
    /\ Dashboard.dict_get "Risco" detalhamento = Some 0%Z
    /\ (total <= 60)%Z.
Proof.
  destruct (calcular_score_santander_liquidez_risco Exemplo.df_infos
              Exemplo.df_transacoes "CNPJ_00002")
    as (total & l & k & d & Hres & Hl & Hk & _ & Hneg & _).
  - discriminate.
  - assert (Hs : iloc_last
                   (map Dashboard.VL_SLDO
                      (Dashboard.rows_of Exemplo.df_infos "CNPJ_00002")) <= 0).
    { unfold iloc_last. simpl. lra. }
    destruct (Hneg Hs) as (-> & -> & Ht).
    exists total, d. repeat split; assumption.
Defined.

Section ClientScoreOneRow.
Import Dashboard.

Lemma cv_saldo_one_positive (b : R) : 0 < b -> cv_saldo [b] = NaN.
Proof.
  intros Hb. apply cv_saldo_short; [simpl; lia|].
  unfold mean. cbn [sum fold_right length INR]. unfold Rdiv.
  rewrite Rinv_1. lra.
Qed.

Lemma score_atividade_young (volume : R) (idade : nat) :
  (idade <= 1)%nat -> (score_atividade volume idade <= 5)%Z.
Proof.
  intros Hi. unfold score_atividade.
  destruct (Nat.leb_spec 4 idade); [lia|].
  destruct (Nat.leb_spec 3 idade); [lia|].
  destruct (Nat.leb_spec 2 idade); [lia|].
  rewrite !andb_false_r. destruct (Rltb 0 volume); lia.
Qed.

End ClientScoreOneRow.

(** A company with a single monthly record and a positive balance gets
    liquidity 20 (nothing is burnt, the runway is infinite), trend 5, risk 10
    (its coefficient of variation is NaN, which is below no ceiling) and at
    most 5 for activity: its total lies between 35 and 60.  With a balance
    that is not positive its liquidity, trend and risk are 0 and the total
    is at most 25. *)
Theorem calcular_score_santander_one_row
  (df_infos : list Dashboard.InfoRow) (df_transacoes : list Dashboard.TransRow)
  (cnpj : string) (r : Dashboard.InfoRow) :
  Dashboard.rows_of df_infos cnpj = [r] ->
  exists (total liquidez tendencias atividade risco : Z)
         (detalhamento : list (string * Z)),
    Dashboard.calcular_score_santander df_infos df_transacoes cnpj
    = (total, detalhamento)
    /\ Dashboard.dict_get "Liquidez" detalhamento = Some liquidez
    /\ Dashboard.dict_get "Tendências" detalhamento = Some tendencias
    /\ Dashboard.dict_get "Atividade" detalhamento = Some atividade
    /\ Dashboard.dict_get "Risco" detalhamento = Some risco
    /\ (atividade <= 5)%Z
    /\ (0 < Dashboard.VL_SLDO r ->
        (liquidez = 20 /\ tendencias = 5 /\ risco = 10
         /\ 35 <= total <= 60)%Z)
    /\ (Dashboard.VL_SLDO r <= 0 ->
        (liquidez = 0 /\ tendencias = 0 /\ risco = 0 /\ 0 <= total <= 25)%Z).
Proof.
  intros Hrows.
  assert (Hne : Dashboard.rows_of df_infos cnpj <> []) by (rewrite Hrows; discriminate).
  destruct (Dashboard.dimensoes (Dashboard.rows_of df_infos cnpj)
              df_transacoes cnpj) as [[[[l rl] t] a] k] eqn:Hd.
  rewrite (calcular_score_santander_present _ _ _ Hne _ _ _ _ _ Hd).
  unfold Dashboard.dimensoes in Hd. rewrite Hrows in Hd.
  cbn [map length diff] in Hd. unfold iloc_last, iloc_first in Hd.
  cbn [last hd] in Hd. injection Hd as Hl Hr Ht Ha Hk.
  set (b := Dashboard.VL_SLDO r) in *.
  assert (Hburn : Dashboard.burn_rate [] = 0) by reflexivity.
  rewrite Hburn in Hl, Hk.
  assert (Hrun : Dashboard.runway b 0 = PosInf).
  { unfold Dashboard.runway. cmp_lt 0 0; [lra|reflexivity]. }
  rewrite Hrun in Hl.
  pose proof (score_atividade_young
                (Dashboard.volume_total
                   (Dashboard.pagamentos_de df_transacoes cnpj)
                   (Dashboard.recebimentos_de df_transacoes cnpj)) 1
                (le_n 1)) as Hyoung.
  rewrite Ha in Hyoung.
  pose proof (dimension_tiers b (b - b) 0
                (Dashboard.volume_total
                   (Dashboard.pagamentos_de df_transacoes cnpj)
                   (Dashboard.recebimentos_de df_transacoes cnpj))
                (Dashboard.hhi_medio
                   (Dashboard.pagamentos_de df_transacoes cnpj)
                   (Dashboard.recebimentos_de df_transacoes cnpj))
                PosInf (Dashboard.cv_saldo [b])
                (Dashboard.num_parceiros
                   (Dashboard.pagamentos_de df_transacoes cnpj)
                   (Dashboard.recebimentos_de df_transacoes cnpj)) 1)
    as (_ & Tr & _ & Ta & _).
  rewrite Hr in Tr. rewrite Ha in Ta.
  unfold Spec.tier in Tr, Ta. simpl in Tr, Ta.
  exists (l + rl + t + a + k)%Z, l, t, a, k. eexists.
  split; [reflexivity|]. do 4 (split; [reflexivity|]).
  split; [exact Hyoung|].
  unfold Dashboard.score_liquidez in Hl.
  unfold Dashboard.score_tendencias in Ht.
  unfold Dashboard.score_risco in Hk.
  unfold fl_gt in Hl. cbn [fl_lt] in Hl.
  split; intros Hb.
  - rewrite (cv_saldo_one_positive b Hb) in Ht, Hk. cbn [fl_lt] in Ht, Hk.
    revert Hl Ht Hk.
    cmp_lt 0 b; [|lra]. cmp_lt 0 (b - b); [lra|].
    cmp_lt (- b * 0.1) (b - b); [|lra].
    cmp_lt 0 (b * 0.1); [|lra]. cmp_lt 0 (b * 0.2); [|lra].
    cmp_lt 0 (b * 0.3); [|lra]. cbn [andb].
    intros <- <- <-. lia.
  - revert Hl Ht Hk.
    cmp_lt 0 b; [lra|]. cmp_lt 0 (b - b); [lra|].
    cmp_lt (- b * 0.1) (b - b); [lra|]. cbn [andb].
    intros <- <- <-. lia.
Qed.

Lemma calcular_score_santander_one_row_witness :
  exists (total : Z) (detalhamento : list (string * Z)),
    Dashboard.calcular_score_santander
      [ {| Dashboard.ID := "A"; Dashboard.VL_SLDO := 900;
           Dashboard.VL_FATU := 1000 |} ] [] "A"
    = (total, detalhamento)
    /\ Dashboard.dict_get "Risco" detalhamento = Some 10%Z
    /\ (35 <= total <= 60)%Z.
Proof.
  destruct (calcular_score_santander_one_row
              [ {| Dashboard.ID := "A"; Dashboard.VL_SLDO := 900;
                   Dashboard.VL_FATU := 1000 |} ] [] "A" _ eq_refl)
    as (total & l & t & a & k & d & Hres & _ & _ & _ & Hk & _ & Hpos & _).
  destruct Hpos as (_ & _ & -> & Htot); [simpl; lra|].
  exists total, d. repeat split; (assumption || lia).
Defined.

(* ------------------------------------------------------------------ *)
(** ** The risk alerts of the context builder *)

Section RiskAlerts.





End RiskAlerts.



(* ------------------------------------------------------------------ *)
(** ** The conversation history *)

Section History.

Lemma add_to_history_skipn (h : list Rag.Conversa) (agora q a : string) :
  let c := {| Rag.timestamp := agora; Rag.question := q; Rag.answer := a |} in
  Rag.add_to_history h agora q a
  = skipn (S (length h) - 10) (h ++ [c]).
Proof.
  intros c. unfold Rag.add_to_history. fold c.
  rewrite length_app. cbn [length]. rewrite Nat.add_1_r.
  destruct (Nat.ltb_spec 10 (S (length h))) as [Hlt|Hge]; [reflexivity|].
  replace (S (length h) - 10)%nat with 0%nat by lia. reflexivity.
Qed.

Lemma add_to_history_length (h : list Rag.Conversa) (agora q a : string) :
  length (Rag.add_to_history h agora q a) = Nat.min (S (length h)) 10.
Proof.
  rewrite add_to_history_skipn, length_skipn, length_app. cbn [length]. lia.
Qed.

Lemma replay_skipn (exchanges h : list Rag.Conversa) :
  (length h <= 10)%nat ->
  Spec.replay h exchanges
  = skipn (length (h ++ exchanges) - 10) (h ++ exchanges).
Proof.
  revert h. induction exchanges as [|c rest IH]; intros h Hh.
  - cbn [Spec.replay]. rewrite app_nil_r.
    replace (length h - 10)%nat with 0%nat by lia. reflexivity.
  - cbn [Spec.replay]. rewrite IH by (rewrite add_to_history_length; lia).
    rewrite add_to_history_skipn. destruct c as [ts qs ans]. cbn [Rag.timestamp
      Rag.question Rag.answer].
    set (c := {| Rag.timestamp := ts; Rag.question := qs; Rag.answer := ans |}).
    set (k := (S (length h) - 10)%nat).
    assert (Hk : (k <= length (h ++ [c]))%nat)
      by (rewrite length_app; cbn [length]; lia).
    assert (Happ : skipn k (h ++ [c]) ++ rest = skipn k (h ++ c :: rest)).
    { replace (h ++ c :: rest) with ((h ++ [c]) ++ rest)
        by (rewrite <- app_assoc; reflexivity).
      rewrite (skipn_app k (h ++ [c]) rest).
      replace (k - length (h ++ [c]))%nat with 0%nat by lia. reflexivity. }
    rewrite Happ, skipn_skipn. f_equal.
    rewrite length_skipn, !length_app. cbn [length]. unfold k. lia.
Qed.

End History.

(** [add_to_history] puts the new exchange last and keeps at most 10: a
    history of fewer than 10 exchanges grows by one, and a history of 10
    loses its oldest exchange. *)
Theorem add_to_history_spec (h : list Rag.Conversa) (agora q a : string) :
  let c := {| Rag.timestamp := agora; Rag.question := q; Rag.answer := a |} in
  let h' := Rag.add_to_history h agora q a in
  length h' = Nat.min (S (length h)) 10
  /\ last h' c = c
  /\ ((length h < 10)%nat -> h' = h ++ [c])
  /\ (length h = 10%nat -> h' = tl h ++ [c]).
Proof.
  intros c h'. subst h'.
  split; [apply add_to_history_length|].
  pose proof (add_to_history_skipn h agora q a) as Hs. cbv zeta in Hs.
  fold c in Hs. rewrite Hs.
  split; [|split].
  - assert (Hk : (S (length h) - 10 <= length h)%nat) by lia.
    rewrite skipn_app.
    replace (S (length h) - 10 - length h)%nat with 0%nat by lia.
    cbn [skipn]. apply last_last.
  - intros Hlt. replace (S (length h) - 10)%nat with 0%nat by lia. reflexivity.
  - intros Heq. rewrite Heq. cbn [Nat.sub].
    destruct h as [|x h]; [discriminate|]. reflexivity.
Qed.

Lemma add_to_history_spec_witness :
  Rag.add_to_history [] "10:00:00" "Qual o risco?" "Baixo"
  = [ {| Rag.timestamp := "10:00:00"; Rag.question := "Qual o risco?";
         Rag.answer := "Baixo" |} ].
Proof.
  destruct (add_to_history_spec [] "10:00:00" "Qual o risco?" "Baixo")
    as (_ & _ & Hgrow & _).
  apply Hgrow. simpl. lia.
Defined.

(** After any number of exchanges from an empty history, the history holds
    the last 10 of them, oldest first, and the chat shows the last 5 of
    them, newest first. *)
Theorem replay_spec (exchanges : list Rag.Conversa) :
  Spec.replay [] exchanges = skipn (length exchanges - 10) exchanges
  /\ (length (Spec.replay [] exchanges) <= 10)%nat
  /\ Rag.historico_exibido (Spec.replay [] exchanges)
     = rev (skipn (length exchanges - 5) exchanges).
Proof.
  assert (Hr : Spec.replay [] exchanges
               = skipn (length exchanges - 10) exchanges).
  { rewrite replay_skipn by (simpl; lia). reflexivity. }
  rewrite Hr. split; [reflexivity|].
  split; [rewrite length_skipn; lia|].
  unfold Rag.historico_exibido. rewrite skipn_skipn, length_skipn.
  do 2 f_equal. lia.
Qed.

(* ------------------------------------------------------------------ *)
(** ** The insights of the company page *)

Section Insights.
Import Dashboard.

Lemma fl_le_refl (x : fl) : x <> NaN -> fl_le x x = true.
Proof.
  destruct x; cbn [fl_le]; try congruence.
  intros _. apply Rleb_true. lra.
Qed.

Lemma fl_lt_not_ge (a b : fl) : fl_lt a b = true -> fl_ge a b = false.
Proof.
  unfold fl_ge. destruct a, b; cbn [fl_lt fl_le]; try congruence.
  intros H. apply Rltb_true in H. apply Rleb_false. exact H.
Qed.

Lemma fl_lt_trans_fin (a : fl) (x y : R) :
  fl_lt a (Fin x) = true -> x <= y -> fl_lt a (Fin y) = true.
Proof.
  destruct a; cbn [fl_lt]; try congruence.
  intros H Hxy. apply Rltb_true in H. apply Rltb_true. lra.
Qed.

Lemma fl_gt_not_lt (a : fl) (x y : R) :
  fl_gt a (Fin x) = true -> y <= x -> fl_lt a (Fin y) = false.
Proof.
  unfold fl_gt. destruct a; cbn [fl_lt]; try congruence.
  intros H Hxy. apply Rltb_true in H. apply Rltb_false. lra.
Qed.

Lemma fl_lt_not_gt (a : fl) (x y : R) :
  fl_lt a (Fin x) = true -> x <= y -> fl_gt a (Fin y) = false.
Proof.
  unfold fl_gt. destruct a; cbn [fl_lt]; try congruence.
  intros H Hxy. apply Rltb_true in H. apply Rltb_false. lra.
Qed.

End Insights.

(** The volatility status of the company page compares the column
    [q75_volat] with itself: it is Alta for every value that is a number or
    an infinity, Baixa for a missing value, and never Média. *)
Theorem volat_status_never_media (q75_volat : fl) :
  Dashboard.volat_status q75_volat <> "Média"%string
  /\ (q75_volat <> NaN -> Dashboard.volat_status q75_volat = "Alta"%string)
  /\ (q75_volat = NaN -> Dashboard.volat_status q75_volat = "Baixa"%string).
Proof.
  unfold Dashboard.volat_status, fl_ge.
  destruct (fl_le q75_volat q75_volat) eqn:Hrefl.
  - repeat split; try discriminate. intros ->. discriminate Hrefl.
  - assert (Hnan : q75_volat = NaN).
    { destruct q75_volat; try reflexivity;
        rewrite fl_le_refl in Hrefl by discriminate; discriminate. }
    subst q75_volat. cbn. repeat split; try discriminate. congruence.
Qed.

(** Every row of the "high risk" cohort gets the recommendation not to
    grant new credit, the risk label Concentrado, and a volume tendency that
    is not "Em crescimento"; every row of the "ideal for credit" cohort gets
    one of the two recommendations of the Madura and Desenvolvimento
    states, the risk label "Não concentrado", and a volume tendency that is
    not "Em declínio". *)
Theorem cohort_insights (df_analisada : list Dashboard.AnalisadaRow)
  (r : Dashboard.AnalisadaRow) :
  (In r (Dashboard.empresas_perigosas df_analisada) ->
   Dashboard.recomendacao (Dashboard.estado_maturidade_hard r)
   = "Não Recomendar Novo Crédito; Foco na Gestão da Exposição Atual"%string
   /\ Dashboard.risco_cat (Dashboard.score_dependencia_risco_0_100 r)
        (Dashboard.q75_risk r) = "Concentrado"%string
   /\ Dashboard.tendencia_volume (Dashboard.grow_volume_total_mes r)
      <> "Em crescimento"%string)
  /\ (In r (Dashboard.empresas_ideais df_analisada) ->
      (Dashboard.recomendacao (Dashboard.estado_maturidade_hard r)
       = "Crédito Estratégico de Baixo Custo"%string
       \/ Dashboard.recomendacao (Dashboard.estado_maturidade_hard r)
          = "Capital de Giro para Aceleração e Antecipação de Recebíveis"%string)
      /\ Dashboard.risco_cat (Dashboard.score_dependencia_risco_0_100 r)
           (Dashboard.q75_risk r) = "Não concentrado"%string
      /\ Dashboard.tendencia_volume (Dashboard.grow_volume_total_mes r)
         <> "Em declínio"%string).
Proof.
  split; intros Hin.
  - apply filter_In in Hin. destruct Hin as [_ Hmask].
    unfold Dashboard.perigosa_mask in Hmask.
    rewrite !andb_true_iff, isin_two in Hmask.
    destruct Hmask as (((((_ & Hrisk) & _) & _) & Hgrow) & Hestado).
    split; [destruct Hestado as [-> | ->]; reflexivity|].
    split.
    + unfold Dashboard.risco_cat. now rewrite Hrisk.
    + unfold Dashboard.tendencia_volume.
      rewrite (fl_lt_not_gt _ 0 0.1 Hgrow) by lra.
      destruct (fl_lt _ (Fin (-0.1))); discriminate.
  - apply filter_In in Hin. destruct Hin as [_ Hmask].
    unfold Dashboard.ideal_mask in Hmask.
    rewrite !andb_true_iff, isin_two in Hmask.
    destruct Hmask as (((((_ & Hrisk) & _) & _) & Hgrow) & Hestado).
    split; [destruct Hestado as [-> | ->]; [left|right]; reflexivity|].
    split.
    + unfold Dashboard.risco_cat. now rewrite (fl_lt_not_ge _ _ Hrisk).
    + unfold Dashboard.tendencia_volume.
      rewrite (fl_gt_not_lt _ 0 (-0.1) Hgrow) by lra.
      destruct (fl_gt _ (Fin 0.1)); discriminate.
Qed.

Lemma exemplo_latest (r : Dashboard.AnalisadaRow) :
  r = Exemplo.ideal \/ r = Exemplo.perigosa ->
  In r (Dashboard.ultimo_mes_data Exemplo.df_analisada).
Proof.
  intros Hr. apply ultimo_mes_data_spec. split.
  - unfold Exemplo.df_analisada.
    destruct Hr as [->| ->]; [right; left|right; right; left]; reflexivity.
  - intros r' Hr'. unfold Exemplo.df_analisada in Hr'.
    destruct Hr as [->| ->];
      repeat (destruct Hr' as [<-|Hr']; [simpl; lia|]); contradiction.
Qed.

Lemma cohort_insights_witness :
  Dashboard.recomendacao (Dashboard.estado_maturidade_hard Exemplo.perigosa)
  = "Não Recomendar Novo Crédito; Foco na Gestão da Exposição Atual"%string
  /\ Dashboard.risco_cat
       (Dashboard.score_dependencia_risco_0_100 Exemplo.ideal)
       (Dashboard.q75_risk Exemplo.ideal)
     = "Não concentrado"%string.
Proof.
  split.
  - apply (cohort_insights Exemplo.df_analisada Exemplo.perigosa).
    apply filter_In. split; [apply exemplo_latest; now right|].
    unfold Dashboard.perigosa_mask, fl_ge. cbn.
    rewrite !andb_true_iff.
    repeat split; try (apply Rleb_true; lra); try (apply Rltb_true; lra);
      try (apply Reqb_true; reflexivity).
  - apply (cohort_insights Exemplo.df_analisada Exemplo.ideal).
    apply filter_In. split; [apply exemplo_latest; now left|].
    unfold Dashboard.ideal_mask, fl_ge, fl_gt. cbn.
    rewrite !andb_true_iff.
    repeat split; try (apply Rleb_true; lra); try (apply Rltb_true; lra);
      try (apply Reqb_true; reflexivity).
Defined.

(* ------------------------------------------------------------------ *)
(** ** The balance progress chart *)

Section Progress.
Import Visualizacoes.

Lemma meses_positivos_fin (ds : list R) :
  meses_positivos (map Fin ds) = Spec.count_positive ds.
Proof.
  unfold meses_positivos. induction ds as [|d ds IH]; [reflexivity|].
  cbn [map filter Spec.count_positive]. unfold fl_gt at 1. cbn [fl_lt].
  cmp_lt 0 d; destruct (Rlt_dec 0 d); try lra; cbn [length]; rewrite IH;
    reflexivity.
Qed.

Lemma verdes_fin (ds : list R) :
  count_occ string_dec (cores_delta (map Fin ds)) "green"%string
  = Spec.count_positive ds.
Proof.
  unfold cores_delta. induction ds as [|d ds IH]; [reflexivity|].
  cbn [map Spec.count_positive cor_delta]. unfold fl_gt at 1. cbn [fl_lt].
  cmp_lt 0 d; destruct (Rlt_dec 0 d); try lra.
  - rewrite count_occ_cons_eq by reflexivity. now rewrite IH.
  - rewrite count_occ_cons_neq by discriminate. exact IH.
Qed.

End Progress.

(** The column [Delta] of the balance progress chart has one entry per row
    and starts with a missing value, whose bar is gray.  The number of green
    bars is the number of positive month-over-month deltas, which is also
    the numerator of the metric "Meses Positivos"; as that metric divides by
    the number of rows, its numerator stays below its denominator for every
    company that has rows.  A month without change is drawn red. *)
Theorem delta_column_spec (saldos : list R) :
  let deltas := Visualizacoes.delta_column saldos in
  let cores := Visualizacoes.cores_delta deltas in
  length deltas = length saldos
  /\ length cores = length saldos
  /\ (saldos <> [] -> hd NaN deltas = NaN /\ hd ""%string cores = "gray"%string)
  /\ Visualizacoes.meses_positivos deltas
     = Spec.count_positive (Spec.deltas saldos)
  /\ count_occ string_dec cores "green"%string
     = Visualizacoes.meses_positivos deltas
  /\ (saldos <> [] ->
      (Visualizacoes.meses_positivos deltas < length saldos)%nat)
  /\ Visualizacoes.cor_delta (Fin 0) = "red"%string.
Proof.
  intros deltas cores. subst cores deltas.
  destruct saldos as [|a s].
  - cbn. repeat split; try reflexivity; try congruence.
    unfold Visualizacoes.cor_delta, fl_gt. cbn [fl_lt].
    cmp_lt 0 0; [lra|reflexivity].
  - cbn [Visualizacoes.delta_column].
    assert (Hlen : length (diff (a :: s)) = length s).
    { rewrite diff_length. cbn [length]. lia. }
    assert (Hmp : Visualizacoes.meses_positivos (NaN :: map Fin (diff (a :: s)))
                  = Spec.count_positive (Spec.deltas (a :: s))).
    { change (Visualizacoes.meses_positivos (map Fin (diff (a :: s)))
              = Spec.count_positive (Spec.deltas (a :: s))).
      rewrite meses_positivos_fin, diff_deltas. reflexivity. }
    assert (Hgreen : count_occ string_dec
                       (Visualizacoes.cores_delta
                          (NaN :: map Fin (diff (a :: s)))) "green"%string
                     = Spec.count_positive (Spec.deltas (a :: s))).
    { change (Visualizacoes.cores_delta (NaN :: map Fin (diff (a :: s))))
        with ("gray"%string
              :: Visualizacoes.cores_delta (map Fin (diff (a :: s)))).
      rewrite count_occ_cons_neq by discriminate.
      rewrite verdes_fin, diff_deltas. reflexivity. }
    split; [cbn [length]; rewrite length_map, Hlen; reflexivity|].
    split; [unfold Visualizacoes.cores_delta;
            rewrite length_map; cbn [length];
            rewrite length_map, Hlen; reflexivity|].
    split; [intros _; split; reflexivity|].
    split; [exact Hmp|]. split; [rewrite Hgreen, Hmp; reflexivity|].
    split.
    + intros _. rewrite Hmp.
      pose proof (count_positive_le (Spec.deltas (a :: s))) as Hle.
      rewrite <- diff_deltas, Hlen in Hle. rewrite <- diff_deltas.
      cbn [length]. lia.
    + unfold Visualizacoes.cor_delta, fl_gt. cbn [fl_lt].
      cmp_lt 0 0; [lra|reflexivity].
Qed.

Lemma delta_column_spec_witness :
  (Visualizacoes.meses_positivos
     (Visualizacoes.delta_column [10%R; 20%R; 30%R]) < 3)%nat.
Proof.
  destruct (delta_column_spec [10; 20; 30]) as (_ & _ & _ & _ & _ & Hlt & _).
  apply Hlt. discriminate.
Defined.

(* ------------------------------------------------------------------ *)
(** ** The risk score chart *)

Section RiskChart.
Import Visualizacoes.

Lemma existsb_eqb_in (id : string) (seen : list string) :
  existsb (String.eqb id) seen = true <-> In id seen.
Proof.
  rewrite existsb_exists. split.
  - intros (x & Hx & Heq). apply String.eqb_eq in Heq. now subst.
  - intros Hin. exists id. split; [exact Hin|apply String.eqb_refl].
Qed.

Lemma drop_duplicates_from_lookup (rows : list (string * R))
  (seen : list string) (id : string) :
  Spec.lookup id (drop_duplicates_from seen rows)
  = if in_dec string_dec id seen then None else Spec.lookup id rows.
Proof.
  revert seen. induction rows as [|[k v] rows IH]; intros seen.
  - cbn. now destruct (in_dec string_dec id seen).
  - cbn [drop_duplicates_from Spec.lookup].
    destruct (existsb (String.eqb k) seen) eqn:Hk.
    + apply existsb_eqb_in in Hk. rewrite IH.
      destruct (in_dec string_dec id seen) as [Hin|Hnin]; [reflexivity|].
      destruct (String.eqb_spec id k) as [->|Hne]; [contradiction|reflexivity].
    + assert (Hnk : ~ In k seen).
      { intros Hin. apply existsb_eqb_in in Hin. congruence. }
      cbn [Spec.lookup]. destruct (String.eqb_spec id k) as [->|Hne].
      * destruct (in_dec string_dec k seen); [contradiction|reflexivity].
      * rewrite IH.
        destruct (in_dec string_dec id (k :: seen)) as [[Heq|Hin]|Hnin];
          destruct (in_dec string_dec id seen) as [Hin'|Hnin'];
          try reflexivity; try congruence; try contradiction.
        exfalso. apply Hnin. now right.
Qed.

Lemma drop_duplicates_from_keys (rows : list (string * R))
  (seen : list string) (id : string) :
  In id (map fst (drop_duplicates_from seen rows))
  <-> In id (map fst rows) /\ ~ In id seen.
Proof.
  revert seen. induction rows as [|[k v] rows IH]; intros seen.
  - cbn. tauto.
  - cbn [drop_duplicates_from].
    destruct (existsb (String.eqb k) seen) eqn:Hk.
    + apply existsb_eqb_in in Hk. rewrite IH. cbn [map fst In].
      split; [tauto|]. intros [[->|Hin] Hn]; [contradiction|tauto].
    + assert (Hnk : ~ In k seen).
      { intros Hin. apply existsb_eqb_in in Hin. congruence. }
      cbn [map fst In]. rewrite IH. cbn [In].
      destruct (string_dec k id) as [->|Hne]; [tauto|]. tauto.
Qed.

Lemma drop_duplicates_from_nodup (rows : list (string * R))
  (seen : list string) :
  NoDup (map fst (drop_duplicates_from seen rows)).
Proof.
  revert seen. induction rows as [|[k v] rows IH]; intros seen.
  - constructor.
  - cbn [drop_duplicates_from].
    destruct (existsb (String.eqb k) seen); [apply IH|].
    cbn [map fst]. constructor; [|apply IH].
    rewrite drop_duplicates_from_keys. intros [_ Hn]. apply Hn. now left.
Qed.

Lemma drop_duplicates_from_incl (rows : list (string * R))
  (seen : list string) (row : string * R) :
  In row (drop_duplicates_from seen rows) -> In row rows.
Proof.
  revert seen. induction rows as [|[k v] rows IH]; intros seen; [tauto|].
  cbn [drop_duplicates_from].
  destruct (existsb (String.eqb k) seen).
  - intros H. right. now apply (IH seen).
  - intros [<-|H]; [now left|]. right. now apply (IH (k :: seen)).
Qed.

Lemma series_min_le (s : list R) (x : R) : In x s -> series_min s <= x.
Proof.
  unfold series_min. generalize (hd 0 s) as d.
  induction s as [|a s IH]; intros d; [contradiction|].
  intros [->|Hin]; cbn [fold_right].
  - apply Rmin_l.
  - eapply Rle_trans; [apply Rmin_r|]. now apply IH.
Qed.

Lemma series_max_ge (s : list R) (x : R) : In x s -> x <= series_max s.
Proof.
  unfold series_max. generalize (hd 0 s) as d.
  induction s as [|a s IH]; intros d; [contradiction|].
  intros [->|Hin]; cbn [fold_right].
  - apply Rmax_l.
  - eapply Rle_trans; [now apply IH|apply Rmax_r].
Qed.

Lemma risk_category_zero : risk_category (Fin 0) = None.
Proof.
  unfold risk_category. cbn [fl_lt fl_le].
  cmp_lt 0 0; [lra|]. cmp_lt 0.3 0; [lra|]. cmp_lt 0.7 0; [lra|].
  reflexivity.
Qed.

Lemma risk_category_one : risk_category (Fin 1) = Some "Alto Risco"%string.
Proof.
  unfold risk_category. cbn [fl_lt fl_le].
  cmp_lt 0 1; [|lra]. cmp_le 1 0.3; [lra|]. cmp_lt 0.3 1; [|lra].
  cmp_le 1 0.7; [lra|]. cmp_lt 0.7 1; [|lra]. cmp_le 1 1; [|lra].
  reflexivity.
Qed.

End RiskChart.

(** [drop_duplicates(subset=['ID'])] keeps one row per ID, the first one in
    frame order: the IDs of the result are distinct, they are the IDs of
    the frame, and looking up an ID gives the balance of its first row. *)
Theorem drop_duplicates_spec (rows : list (string * R)) :
  NoDup (map fst (Visualizacoes.drop_duplicates rows))
  /\ (forall id : string,
        In id (map fst (Visualizacoes.drop_duplicates rows))
        <-> In id (map fst rows))
  /\ (forall id : string,
        Spec.lookup id (Visualizacoes.drop_duplicates rows)
        = Spec.lookup id rows)
  /\ (forall row, In row (Visualizacoes.drop_duplicates rows) -> In row rows).
Proof.
  unfold Visualizacoes.drop_duplicates.
  split; [apply drop_duplicates_from_nodup|].
  split; [intros id; rewrite drop_duplicates_from_keys; cbn; tauto|].
  split; [intros id; now rewrite drop_duplicates_from_lookup|].
  intros row. apply drop_duplicates_from_incl.
Qed.

(** The score of one balance among the balances of the chart. *)
Lemma risk_score_cases (saldos : list R) (x : R) :
  In x saldos ->
  let lo := Visualizacoes.series_min saldos in
  let hi := Visualizacoes.series_max saldos in
  lo <= x <= hi
  /\ (lo < hi ->
      Visualizacoes.risk_score saldos x = Fin (1 - (x - lo) / (hi - lo))
      /\ 0 <= 1 - (x - lo) / (hi - lo) <= 1
      /\ (x = lo ->
          Visualizacoes.risk_category (Visualizacoes.risk_score saldos x)
          = Some "Alto Risco"%string)
      /\ (x = hi ->
          Visualizacoes.risk_category (Visualizacoes.risk_score saldos x)
          = None))
  /\ (lo = hi ->
      Visualizacoes.risk_score saldos x = NaN
      /\ Visualizacoes.risk_category (Visualizacoes.risk_score saldos x)
         = None).
Proof.
  intros Hin lo hi.
  pose proof (series_min_le saldos x Hin) as Hlo.
  pose proof (series_max_ge saldos x Hin) as Hhi.
  fold lo in Hlo. fold hi in Hhi.
  split; [lra|]. unfold Visualizacoes.risk_score. fold lo hi. split.
  - intros Hlt. cbn [fl_div].
    cmp_eq (hi - lo) 0; [lra|]. cbn [fl_sub fl_neg fl_add].
    assert (Hq : 0 <= (x - lo) / (hi - lo) <= 1).
    { assert (Hinv : 0 < / (hi - lo)) by (apply Rinv_0_lt_compat; lra).
      unfold Rdiv. split; [apply Rmult_le_pos; lra|].
      apply (Rmult_le_reg_r (hi - lo)); [lra|].
      rewrite Rmult_assoc, Rinv_l by lra. lra. }
    split; [f_equal; lra|]. split; [lra|]. split.
    + intros ->. replace (1 + - ((lo - lo) / (hi - lo))) with 1.
      * apply risk_category_one.
      * unfold Rdiv. ring.
    + intros ->. replace (1 + - ((hi - lo) / (hi - lo))) with 0.
      * apply risk_category_zero.
      * field. lra.
  - intros Heq. cbn [fl_div].
    cmp_eq (hi - lo) 0; [|lra].
    cmp_lt 0 (x - lo); [lra|]. cmp_lt (x - lo) 0; [lra|].
    split; reflexivity.
Qed.

(** In the risk score chart every company is scored once, on its first
    row.  When the balances differ, a company with the lowest balance gets
    the category "Alto Risco", and a company with the highest balance gets
    the score 0, which lies outside the intervals (0, 0.3], (0.3, 0.7] and
    (0.7, 1]: it gets no category and is missing from the pie.  When all
    balances are equal (a single company, for one) the score is NaN and no
    company gets a category. *)
Theorem risk_categories_spec (rows : list (string * R)) :
  let df_risk := Visualizacoes.drop_duplicates rows in
  let saldos := map snd df_risk in
  let lo := Visualizacoes.series_min saldos in
  let hi := Visualizacoes.series_max saldos in
  map fst (Visualizacoes.risk_categories rows) = map fst df_risk
  /\ (forall id x, In (id, x) df_risk -> lo < hi -> x = lo ->
      In (id, Some "Alto Risco"%string) (Visualizacoes.risk_categories rows))
  /\ (forall id x, In (id, x) df_risk -> x = hi ->
      In (id, None) (Visualizacoes.risk_categories rows))
  /\ (lo = hi ->
      forall entry, In entry (Visualizacoes.risk_categories rows) ->
                    snd entry = None).
Proof.
  intros df_risk saldos lo hi. unfold Visualizacoes.risk_categories.
  fold df_risk. fold saldos.
  assert (Hmem : forall id x, In (id, x) df_risk -> In x saldos).
  { intros id x Hin. unfold saldos. apply in_map_iff. now exists (id, x). }
  split; [rewrite map_map; reflexivity|]. split; [|split].
  - intros id x Hin Hlt Hx. apply in_map_iff. exists (id, x).
    split; [|exact Hin]. cbn [fst snd]. f_equal.
    destruct (risk_score_cases saldos x (Hmem id x Hin)) as (_ & Hd & _).
    now apply Hd.
  - intros id x Hin Hx. apply in_map_iff. exists (id, x).
    split; [|exact Hin]. cbn [fst snd]. f_equal.
    destruct (risk_score_cases saldos x (Hmem id x Hin)) as (Hb & Hd & He).
    fold lo hi in Hb, Hd, He.
    destruct (Rlt_dec lo hi) as [Hlt|Hge].
    + now apply Hd.
    + apply He. lra.
  - intros Heq entry Hin. apply in_map_iff in Hin.
    destruct Hin as ([id x] & <- & Hin). cbn [fst snd].
    destruct (risk_score_cases saldos x (Hmem id x Hin)) as (_ & _ & He).
    now apply He.
Qed.

Lemma risk_categories_spec_witness :
  In ("B"%string, None)
     (Visualizacoes.risk_categories
        [("A"%string, 10); ("B"%string, 30); ("A"%string, 50);
         ("C"%string, 20)])
  /\ In ("A"%string, Some "Alto Risco"%string)
       (Visualizacoes.risk_categories
          [("A"%string, 10); ("B"%string, 30); ("A"%string, 50);
           ("C"%string, 20)]).
Proof.
  assert (Hdf : Visualizacoes.drop_duplicates
                  [("A"%string, 10); ("B"%string, 30); ("A"%string, 50);
                   ("C"%string, 20)]
                = [("A"%string, 10); ("B"%string, 30); ("C"%string, 20)])
    by reflexivity.
  assert (Hlo : Visualizacoes.series_min [10; 30; 20] = 10).
  { unfold Visualizacoes.series_min. cbn [fold_right hd].
    unfold Rmin. repeat (destruct (Rle_dec _ _); try lra). }
  assert (Hhi : Visualizacoes.series_max [10; 30; 20] = 30).
  { unfold Visualizacoes.series_max. cbn [fold_right hd].
    unfold Rmax. repeat (destruct (Rle_dec _ _); try lra). }
  destruct (risk_categories_spec
              [("A"%string, 10); ("B"%string, 30); ("A"%string, 50);
               ("C"%string, 20)]) as (_ & Hmin & Hmax & _).
  cbv zeta in Hmin, Hmax. rewrite Hdf in Hmin, Hmax.
  cbn [map snd] in Hmin, Hmax. rewrite Hlo, Hhi in Hmin. rewrite Hhi in Hmax.
  split.
  - apply (Hmax "B"%string 30); [right; left; reflexivity|reflexivity].
  - apply (Hmin "A"%string 10); [left; reflexivity|lra|reflexivity].
Defined.

(* ------------------------------------------------------------------ *)
(** ** Recognising a company without rows *)

Section Absent.
Import Dashboard.

Lemma rows_of_nil_iff (df_infos : list InfoRow) (cnpj : string) :
  rows_of df_infos cnpj = [] <-> forall r, In r df_infos -> ID r <> cnpj.
Proof.
  unfold rows_of. rewrite filter_nil_iff.
  split; intros H r Hr; specialize (H r Hr); now apply String.eqb_neq.
Qed.

Lemma classificar_momento_values (idade : nat) (g : R) (cv : fl) :
  fst (classificar_momento idade g cv) <> "N/A"%string
  /\ snd (classificar_momento idade g cv) <> 0%Z
  /\ In (snd (classificar_momento idade g cv)) [20; 50; 60; 80]%Z.
Proof.
  unfold classificar_momento.
  destruct (idade <=? 2)%nat;
    [|destruct (Rltb 20 g && fl_lt cv (Fin 0.3));
      [|destruct (Rltb 0 g && fl_lt cv (Fin 0.5));
        [|destruct (Rltb g (-10))]]];
    cbn [fst snd]; repeat split; try discriminate; simpl; tauto.
Qed.

Lemma categoria_saude_not_na (score : fl) :
  categoria_saude score <> "N/A"%string.
Proof.
  unfold categoria_saude.
  destruct (fl_ge score (Fin 80)); [discriminate|].
  destruct (fl_ge score (Fin 60)); discriminate.
Qed.

End Absent.

(** The neutral defaults identify a company without rows and nothing else:
    the life stage is N/A, and its score 0, exactly when no row carries the
    company id; for a company with rows the life-stage score is one of 20,
    50, 60 and 80.  The health category is N/A, and the breakdown of the
    client score empty, exactly in the same case. *)
Theorem absent_iff_defaults
  (df_infos : list Dashboard.InfoRow) (df_transacoes : list Dashboard.TransRow)
  (cnpj : string) :
  let absent := forall r, In r df_infos -> Dashboard.ID r <> cnpj in
  (fst (Dashboard.calcular_momento_vida df_infos cnpj) = "N/A"%string
   <-> absent)
  /\ (snd (Dashboard.calcular_momento_vida df_infos cnpj) = 0%Z <-> absent)
  /\ (~ absent ->
      In (snd (Dashboard.calcular_momento_vida df_infos cnpj))
         [20; 50; 60; 80]%Z)
  /\ (snd (Dashboard.calcular_saude_empresa df_infos df_transacoes cnpj)
      = "N/A"%string <-> absent)
  /\ (snd (Dashboard.calcular_score_santander df_infos df_transacoes cnpj)
      = [] <-> absent).
Proof.
  intros absent. unfold absent. rewrite <- rows_of_nil_iff.
  unfold Dashboard.calcular_momento_vida, Dashboard.calcular_saude_empresa,
    Dashboard.calcular_score_santander.
  destruct (Dashboard.rows_of df_infos cnpj) as [|r0 rows] eqn:Hrows.
  - cbn. repeat split; intros; congruence.
  - cbn [length Nat.eqb].
    set (idade := S (length rows)).
    set (saldos := map Dashboard.VL_SLDO (r0 :: rows)).
    destruct (classificar_momento_values idade
                (Dashboard.crescimento_saldo saldos)
                (Dashboard.cv_saldo saldos)) as (Hna & Hz & Hin).
    destruct (Dashboard.dimensoes (r0 :: rows) df_transacoes cnpj)
      as [[[[l rl] t] a] k].
    cbn [fst snd].
    split; [split; [intros H; contradiction|discriminate]|].
    split; [split; [intros H; contradiction|discriminate]|].
    split; [intros _; exact Hin|].
    split; [split; [intros H; now apply categoria_saude_not_na in H
                   |discriminate]|].
    split; discriminate.
Qed.
